(** * The credential store of the dashboard frontend

    A shallow embedding of [frontend/src/store/credential.js]: the five
    key-to-record mappings of the Pinia store, the full refresh
    ([_setCredentials]), the single-resource update
    ([_updateCloudProviderCredential]), the derived binding list and the
    asynchronous entry points around the backend API.

    Conventions of the embedding.
    - A JavaScript string is a [string]; the only string operations the store
      uses are concatenation, [startsWith] and [slice] with an ASCII prefix,
      which act on the UTF-8 bytes exactly as they act on the code units.
    - The label object of a resource keeps its properties in creation order
      ([jsobj]); [Object_entries] lists them the way the language does, array
      indices first.
    - Each of the five store objects is a finite map from keys to records
      ([gmap string Resource]); the order in which [Object.values] lists a
      store object is not part of the model, its content is.
    - The records handed to the store come out of a JSON response, so no two
      of them share an object: writing [item.kind] changes that one record. *)

From Stdlib Require Import Ascii String List NArith Bool.
From stdpp Require Import gmap strings list fin_maps.

Open Scope string_scope.

(** ** JavaScript strings and plain objects *)

Module Js.

(** [s.startsWith(p)] *)
Definition startsWith (s p : string) : bool := String.prefix p s.

(** [s.slice(n)] for [0 <= n]: the string without its first [n] units. *)
Fixpoint slice (n : nat) (s : string) : string :=
  match n, s with
  | O, _ => s
  | S n', String _ s' => slice n' s'
  | S _, EmptyString => EmptyString
  end.

(** Whether a string has a ["/"] in it. *)
Fixpoint hasSlash (s : string) : bool :=
  match s with
  | EmptyString => false
  | String c s' => Ascii.eqb c "/" || hasSlash s'
  end.

(** A plain object: its own properties in creation order. *)
Definition jsobj (V : Type) : Type := list (string * V).

Definition is_digit (c : ascii) : bool :=
  (48 <=? nat_of_ascii c)%nat && (nat_of_ascii c <=? 57)%nat.

Fixpoint all_digits (s : string) : bool :=
  match s with
  | EmptyString => true
  | String c s' => is_digit c && all_digits s'
  end.

Fixpoint decimal (acc : N) (s : string) : N :=
  match s with
  | EmptyString => acc
  | String c s' => decimal (acc * 10 + (N_of_ascii c - 48))%N s'
  end.

(** A property key is an array index when it is the canonical decimal
    form of an integer below 2^32 - 1. *)
Definition array_index (key : string) : option N :=
  match key with
  | EmptyString => None
  | String c rest =>
      if is_digit c && all_digits rest
         && (negb (Ascii.eqb c "0") || String.eqb rest EmptyString)
         && (decimal 0 key <? 4294967295)%N
      then Some (decimal 0 key)
      else None
  end.

Fixpoint insert_by_index {V} (e : N * (string * V)) (l : list (N * (string * V)))
  : list (N * (string * V)) :=
  match l with
  | [] => [e]
  | e' :: l' => if (e.1 <=? e'.1)%N then e :: l else e' :: insert_by_index e l'
  end.

Definition sort_by_index {V} (l : list (N * (string * V))) : list (N * (string * V)) :=
  foldr insert_by_index [] l.

Definition indexed {V} (e : string * V) : option (N * (string * V)) :=
  match array_index e.1 with
  | Some i => Some (i, e)
  | None => None
  end.

(** [Object.entries(o)]: the array-index keys in ascending numeric order,
    then every other key in creation order. *)
Definition Object_entries {V} (o : jsobj V) : list (string * V) :=
  map snd (sort_by_index (omap indexed o))
  ++ List.filter (fun e => negb (bool_decide (is_Some (array_index e.1)))) o.

End Js.

(** ** Capability tags *)

Definition providerPrefix : string := "provider.shoot.gardener.cloud/".

(** The [filter] callback of [providerTypesFromLabels]. *)
Definition selected (entry : string * string) : bool :=
  let '(key, value) := entry in
  String.eqb value "true" && Js.startsWith key providerPrefix.

(** [labels || {}], then [Object.entries], [filter] and [map]. *)
Definition providerTypesFromLabels (labels : option (Js.jsobj string)) : list string :=
  map (fun '(key, _) => Js.slice (String.length providerPrefix) key)
    (List.filter selected (Js.Object_entries (default [] labels))).

(** The extractor as the specification words it: walking the label mapping
    in insertion order, a key [prefix ++ tag] with value ["true"] gives [tag]. *)
Fixpoint stripPrefix (p s : string) : option string :=
  match p, s with
  | EmptyString, _ => Some s
  | String a p', String b s' => if Ascii.eqb a b then stripPrefix p' s' else None
  | String _ _, EmptyString => None
  end.

Definition capabilityTag (entry : string * string) : option string :=
  if String.eqb entry.2 "true" then stripPrefix providerPrefix entry.1 else None.

Definition capabilityTags (labels : list (string * string)) : list string :=
  omap capabilityTag labels.

(** ** Resources *)

Record Metadata := {
  namespace : string;
  name : string;
  uid : string;
  labels : option (Js.jsobj string);
  annotations : list (string * string);
}.

Record Provider := { type : string }.

Record SecretRef := { ref_name : string; ref_namespace : string }.

Record CredentialsRef := {
  cref_name : string;
  cref_namespace : string;
  cref_kind : string;
  cref_apiVersion : option string;
}.

(** A record of any of the kinds the store holds. A field the object does
    not have (or has as [undefined]) is [None]; [data] stands for the rest
    of the payload (secret data, quota spec), which the store never reads. *)
Record Resource := {
  kind : option string;
  apiVersion : option string;
  metadata : Metadata;
  provider : option Provider;
  secretRef : option SecretRef;
  credentialsRef : option CredentialsRef;
  data : list (string * string);
}.

(** [item.kind = k] *)
Definition assignKind (k : string) (item : Resource) : Resource :=
  {| kind := Some k;
     apiVersion := apiVersion item;
     metadata := metadata item;
     provider := provider item;
     secretRef := secretRef item;
     credentialsRef := credentialsRef item;
     data := data item |}.

(** [{ ...metadata, uid }] *)
Definition spreadWithUid (m : Metadata) (u : string) : Metadata :=
  {| namespace := namespace m;
     name := name m;
     uid := u;
     labels := labels m;
     annotations := annotations m |}.

(** ** Key index *)

Definition namespaceNameKey (namespace name : string) : string :=
  namespace +:+ "/" +:+ name.

(** [namespaceNameKey(item.metadata)] *)
Definition metadataKey (m : Metadata) : string :=
  namespaceNameKey (namespace m) (name m).

(** ** The store state *)

Record State := {
  secretBindings : gmap string Resource;
  secrets : gmap string Resource;
  credentialsBindings : gmap string Resource;
  workloadIdentities : gmap string Resource;
  quotas : gmap string Resource;
}.

(** [$reset] *)
Definition reset : State :=
  {| secretBindings := ∅;
     secrets := ∅;
     credentialsBindings := ∅;
     workloadIdentities := ∅;
     quotas := ∅ |}.

(** lodash [set(object, [key], value)]: one path segment, so a plain
    property write, except that lodash refuses the three keys through which
    a prototype could be reached. *)
Definition unsafeKey (key : string) : bool :=
  String.eqb key "__proto__" || String.eqb key "constructor" || String.eqb key "prototype".

Definition set (object : gmap string Resource) (key : string) (value : Resource)
  : gmap string Resource :=
  if unsafeKey key then object else <[key := value]> object.

(** [Object.keys] and [Object.values] of a store object. *)
Definition Object_keys (object : gmap string Resource) : list string :=
  (map_to_list object).*1.

Definition Object_values (object : gmap string Resource) : list Resource :=
  (map_to_list object).*2.

(** [array?.forEach(f)], with the state the callback writes to threaded
    through; a missing array is skipped. *)
Definition forEach {A S : Type} (array : option (list A)) (f : S -> A -> S) (s : S) : S :=
  match array with
  | Some items => fold_left f items s
  | None => s
  end.

(** The two object literals written for a capability tag. The literal for a
    secret occurs twice in the source, word for word the same. *)
Definition secretVirtualBinding (item : Resource) (type : string) : Resource :=
  {| kind := Some "Secret";
     apiVersion := None;
     metadata := spreadWithUid (metadata item) (uid (metadata item) +:+ "-" +:+ type);
     provider := Some {| type := type |};
     secretRef := Some {| ref_name := name (metadata item);
                          ref_namespace := namespace (metadata item) |};
     credentialsRef := None;
     data := [] |}.

Definition workloadIdentityVirtualBinding (item : Resource) (type : string) : Resource :=
  {| kind := Some "WorkloadIdentity";
     apiVersion := apiVersion item;
     metadata := spreadWithUid (metadata item) (uid (metadata item) +:+ "-" +:+ type);
     provider := Some {| type := type |};
     secretRef := None;
     credentialsRef := Some {| cref_name := name (metadata item);
                               cref_namespace := namespace (metadata item);
                               cref_kind := "WorkloadIdentity";
                               cref_apiVersion := apiVersion item |};
     data := [] |}.

(** [providerTypesFromLabels(item.metadata.labels).forEach(type => set(...))] *)
Definition setVirtualBindings (literal : Resource -> string -> Resource)
    (key : string) (item : Resource) (bindings : gmap string Resource)
  : gmap string Resource :=
  fold_left
    (fun object type => set object (key +:+ "/" +:+ type) (literal item type))
    (providerTypesFromLabels (labels (metadata item)))
    bindings.

(** ** Full refresh *)

(** What the backend hands to [_setCredentials]; a collection the response
    lacks is [None]. *)
Module Payload.
Record t := {
  secretBindings : option (list Resource);
  secrets : option (list Resource);
  credentialsBindings : option (list Resource);
  workloadIdentities : option (list Resource);
  quotas : option (list Resource);
}.
End Payload.

(** The five [forEach] callbacks of [_setCredentials], in source order. *)
Definition secretBindingItem (st : State) (item : Resource) : State :=
  let key := metadataKey (metadata item) in
  let item := assignKind "SecretBinding" item in
  {| secretBindings := set (secretBindings st) key item;
     secrets := secrets st;
     credentialsBindings := credentialsBindings st;
     workloadIdentities := workloadIdentities st;
     quotas := quotas st |}.

Definition secretItem (st : State) (item : Resource) : State :=
  let key := metadataKey (metadata item) in
  let item := assignKind "Secret" item in
  {| secretBindings := secretBindings st;
     secrets := set (secrets st) key item;
     credentialsBindings :=
       setVirtualBindings secretVirtualBinding key item (credentialsBindings st);
     workloadIdentities := workloadIdentities st;
     quotas := quotas st |}.

Definition credentialsBindingItem (st : State) (item : Resource) : State :=
  let key := metadataKey (metadata item) in
  let item := assignKind "CredentialsBinding" item in
  {| secretBindings := secretBindings st;
     secrets := secrets st;
     credentialsBindings := set (credentialsBindings st) key item;
     workloadIdentities := workloadIdentities st;
     quotas := quotas st |}.

Definition workloadIdentityItem (st : State) (item : Resource) : State :=
  let key := metadataKey (metadata item) in
  let item := assignKind "WorkloadIdentity" item in
  {| secretBindings := secretBindings st;
     secrets := secrets st;
     credentialsBindings :=
       setVirtualBindings workloadIdentityVirtualBinding key item (credentialsBindings st);
     workloadIdentities := set (workloadIdentities st) key item;
     quotas := quotas st |}.

Definition quotaItem (st : State) (item : Resource) : State :=
  let key := metadataKey (metadata item) in
  {| secretBindings := secretBindings st;
     secrets := secrets st;
     credentialsBindings := credentialsBindings st;
     workloadIdentities := workloadIdentities st;
     quotas := set (quotas st) key item |}.

Definition _setCredentials (p : Payload.t) (st : State) : State :=
  let st := reset in
  let st := forEach (Payload.secretBindings p) secretBindingItem st in
  let st := forEach (Payload.secrets p) secretItem st in
  let st := forEach (Payload.credentialsBindings p) credentialsBindingItem st in
  let st := forEach (Payload.workloadIdentities p) workloadIdentityItem st in
  forEach (Payload.quotas p) quotaItem st.

(** ** Single-resource update *)

(** [item.kind === k] *)
Definition kindIs (item : Resource) (k : string) : bool :=
  bool_decide (kind item = Some k).

(** The [if (binding)] block. *)
Definition updateBinding (binding : Resource) (st : State) : State :=
  let key := metadataKey (metadata binding) in
  if kindIs binding "SecretBinding" then
    {| secretBindings := set (secretBindings st) key binding;
       secrets := secrets st;
       credentialsBindings := credentialsBindings st;
       workloadIdentities := workloadIdentities st;
       quotas := quotas st |}
  else if kindIs binding "CredentialsBinding" then
    {| secretBindings := secretBindings st;
       secrets := secrets st;
       credentialsBindings := set (credentialsBindings st) key binding;
       workloadIdentities := workloadIdentities st;
       quotas := quotas st |}
  else st.

(** One round of the loop over [Object.keys(state.credentialsBindings)].
    The key [k] was listed from the object the loop works on and the loop
    deletes nothing but the key it is visiting, so the read [object[k]]
    always finds a record ([purge_read_defined] below); the [None] branch
    is there for the type of the lookup only. *)
Definition purgeStep (key : string) (object : gmap string Resource) (k : string)
  : gmap string Resource :=
  if String.eqb k key || Js.startsWith k (key +:+ "/") then
    match object !! k with
    | Some item => if kindIs item "Secret" then delete k object else object
    | None => object
    end
  else object.

Definition purgeVirtualBindings (key : string) (object : gmap string Resource)
  : gmap string Resource :=
  fold_left (purgeStep key) (Object_keys object) object.

(** The [if (secret)] block: store the secret, then refresh its virtual
    bindings. *)
Definition updateSecret (secret : Resource) (st : State) : State :=
  let key := metadataKey (metadata secret) in
  {| secretBindings := secretBindings st;
     secrets := set (secrets st) key secret;
     credentialsBindings :=
       setVirtualBindings secretVirtualBinding key secret
         (purgeVirtualBindings key (credentialsBindings st));
     workloadIdentities := workloadIdentities st;
     quotas := quotas st |}.

Definition whenDefined {A S : Type} (x : option A) (f : A -> S -> S) (s : S) : S :=
  match x with
  | Some a => f a s
  | None => s
  end.

Definition _updateCloudProviderCredential (binding secret : option Resource) (st : State)
  : State :=
  whenDefined secret updateSecret (whenDefined binding updateBinding st).

(** ** Views *)

Definition cloudProviderBindingList (st : State) : list Resource :=
  Object_values (secretBindings st) ++ Object_values (credentialsBindings st).

Definition quotaList (st : State) : list Resource :=
  Object_values (quotas st).

Definition secretBindingList (st : State) : list Resource :=
  Object_values (secretBindings st).

Definition credentialsBindingList (st : State) : list Resource :=
  List.filter (fun item => kindIs item "CredentialsBinding")
    (Object_values (credentialsBindings st)).

Definition getSecret (st : State) (namespace name : string) : option Resource :=
  secrets st !! namespaceNameKey namespace name.

Definition getWorkloadIdentity (st : State) (namespace name : string) : option Resource :=
  workloadIdentities st !! namespaceNameKey namespace name.

Definition getQuota (st : State) (namespace name : string) : option Resource :=
  quotas st !! namespaceNameKey namespace name.

(** ** The asynchronous entry points *)

Inductive JsError :=
| BackendError (reason : string)
| TypeError.

(** How an awaited call ends. *)
Inductive outcome (A : Type) :=
| Resolved (a : A)
| Rejected (err : JsError).

Arguments Resolved {A} a.
Arguments Rejected {A} err.

(** A response body; [body = None] is a response without a [data] object,
    on which the destructuring pattern throws. *)
Record Response (A : Type) := { body : option A }.

Arguments body {A} r.

(** The pair [{ binding, secret }] of the create parameters and of the
    create and update responses. *)
Record Credential := {
  binding : option Resource;
  secret : option Resource;
}.

(** The backend, as the store sees it through [useApi]. *)
Record Api := {
  getCloudProviderCredentials : string -> outcome (Response Payload.t);
  createCloudProviderCredential : Credential -> outcome (Response Credential);
  updateCloudProviderCredential : option Resource -> outcome (Response Credential);
  deleteCloudProviderCredential : string -> string -> string -> outcome unit;
}.

(** The store together with the success messages handed to the app store. *)
Record World := {
  state : State;
  alerts : list string;
}.

Definition withState (st : State) (w : World) : World :=
  {| state := st; alerts := alerts w |}.

(** [appStore.setSuccess(message)] *)
Definition setSuccess (message : string) (w : World) : World :=
  {| state := state w; alerts := alerts w ++ [message] |}.

(** The [try] block of [fetchCredentials]. *)
Definition fetchAttempt (api : Api) (namespace : string) (w : World) : World * outcome unit :=
  match getCloudProviderCredentials api namespace with
  | Rejected err => (w, Rejected err)
  | Resolved response =>
      match body response with
      | None => (w, Rejected TypeError)
      | Some payload => (withState (_setCredentials payload (state w)) w, Resolved tt)
      end
  end.

(** [fetchCredentials]: the [catch] clause resets the store and throws the
    error on. [namespace] is [authzStore.namespace]. *)
Definition fetchCredentials (api : Api) (namespace : string) (w : World) : World * outcome unit :=
  match fetchAttempt api namespace w with
  | (w', Rejected err) => (withState reset w', Rejected err)
  | (w', Resolved r) => (w', Resolved r)
  end.

Definition createCredential (api : Api) (params : Credential) (w : World)
  : World * outcome unit :=
  match createCloudProviderCredential api
          {| binding := binding params; secret := secret params |} with
  | Rejected err => (w, Rejected err)
  | Resolved response =>
      match body response with
      | None => (w, Rejected TypeError)
      | Some created =>
          let w' :=
            withState
              (_updateCloudProviderCredential (binding created) (secret created) (state w)) w in
          match binding created with
          | None => (w', Rejected TypeError)
          | Some b =>
              (setSuccess
                 ("Cloud Provider credential " +:+ name (metadata b) +:+ " created") w',
               Resolved tt)
          end
      end
  end.

(** [binding?.metadata?.name || secret.metadata.name]: the empty name is
    falsy, and reading the name of a missing secret throws. *)
Definition displayName (binding secret : option Resource) : outcome string :=
  match binding with
  | Some b =>
      if negb (String.eqb (name (metadata b)) "") then Resolved (name (metadata b))
      else match secret with
           | Some s => Resolved (name (metadata s))
           | None => Rejected TypeError
           end
  | None =>
      match secret with
      | Some s => Resolved (name (metadata s))
      | None => Rejected TypeError
      end
  end.

Definition updateCredential (api : Api) (params : Credential) (w : World)
  : World * outcome unit :=
  match updateCloudProviderCredential api (secret params) with
  | Rejected err => (w, Rejected err)
  | Resolved response =>
      match body response with
      | None => (w, Rejected TypeError)
      | Some updated =>
          let w' :=
            withState (_updateCloudProviderCredential None (secret updated) (state w)) w in
          match displayName (binding params) (secret params) with
          | Rejected err => (w', Rejected err)
          | Resolved name =>
              (setSuccess ("Cloud Provider credential " +:+ name +:+ " updated") w',
               Resolved tt)
          end
      end
  end.

Definition deleteCredential (api : Api) (namespace : string)
    (bindingKind bindingNamespace bindingName : string) (w : World)
  : World * outcome unit :=
  match deleteCloudProviderCredential api bindingKind bindingNamespace bindingName with
  | Rejected err => (w, Rejected err)
  | Resolved _ =>
      match fetchCredentials api namespace w with
      | (w', Rejected err) => (w', Rejected err)
      | (w', Resolved _) =>
          (setSuccess ("Cloud Provider credential " +:+ bindingName +:+ " deleted") w',
           Resolved tt)
      end
  end.

(** The stores a session can be in: the empty one, and whatever the four
    entry points make of it, against any backend. *)
Inductive reachable : World -> Prop :=
| reach_initial : reachable {| state := reset; alerts := [] |}
| reach_fetch api namespace w :
    reachable w -> reachable (fetchCredentials api namespace w).1
| reach_create api params w :
    reachable w -> reachable (createCredential api params w).1
| reach_update api params w :
    reachable w -> reachable (updateCredential api params w).1
| reach_delete api namespace k ns n w :
    reachable w -> reachable (deleteCredential api namespace k ns n w).1.

(** ** The vocabulary of the specification *)

(** The five collections, the store object each one is kept in, and the
    callback [_setCredentials] runs on its elements. *)
Inductive Collection :=
| OfSecretBindings
| OfSecrets
| OfCredentialsBindings
| OfWorkloadIdentities
| OfQuotas.

Definition mapping (c : Collection) (st : State) : gmap string Resource :=
  match c with
  | OfSecretBindings => secretBindings st
  | OfSecrets => secrets st
  | OfCredentialsBindings => credentialsBindings st
  | OfWorkloadIdentities => workloadIdentities st
  | OfQuotas => quotas st
  end.

Definition callback (c : Collection) : State -> Resource -> State :=
  match c with
  | OfSecretBindings => secretBindingItem
  | OfSecrets => secretItem
  | OfCredentialsBindings => credentialsBindingItem
  | OfWorkloadIdentities => workloadIdentityItem
  | OfQuotas => quotaItem
  end.

(** The kind the callback of a collection writes into its items; the quota
    callback writes none. *)
Definition kindTag (c : Collection) : option string :=
  match c with
  | OfSecretBindings => Some "SecretBinding"
  | OfSecrets => Some "Secret"
  | OfCredentialsBindings => Some "CredentialsBinding"
  | OfWorkloadIdentities => Some "WorkloadIdentity"
  | OfQuotas => None
  end.

Definition tagged (c : Collection) (item : Resource) : Resource :=
  match kindTag c with
  | Some k => assignKind k item
  | None => item
  end.

Definition withMapping (c : Collection) (m : gmap string Resource) (st : State) : State :=
  {| secretBindings := if c is OfSecretBindings then m else secretBindings st;
     secrets := if c is OfSecrets then m else secrets st;
     credentialsBindings := if c is OfCredentialsBindings then m else credentialsBindings st;
     workloadIdentities := if c is OfWorkloadIdentities then m else workloadIdentities st;
     quotas := if c is OfQuotas then m else quotas st |}.

(** [upsert(kind, record)] of the specification (4.3): the record goes
    into the mapping its collection selects, under its key. The kind it is
    stored with is the one the callback of the collection gives it. *)
Definition upsert (c : Collection) (record : Resource) (st : State) : State :=
  withMapping c (<[metadataKey (metadata record) := tagged c record]> (mapping c st)) st.

(** Step 2 of the synthesizer removes the entries the owner owns: the key
    is the owner's key or goes on from it with a ["/"], and the kind is the
    owner's. *)
Definition ownedBy (ownerKey : string) (ownerKind : option string)
    (k : string) (v : Resource) : bool :=
  (String.eqb k ownerKey || Js.startsWith k (ownerKey +:+ "/"))
  && bool_decide (kind v = ownerKind).

(** [synthesize(owner)] of the specification (4.4), steps 1 to 4. The
    virtual binding of step 4 is the literal the store writes for an owner
    of that kind. *)
Definition synthesize (owner : Resource) (st : State) : State :=
  let ownerKey := metadataKey (metadata owner) in
  let kept :=
    filter (fun entry => ownedBy ownerKey (kind owner) entry.1 entry.2 = false)
      (credentialsBindings st) in
  let literal :=
    if kindIs owner "WorkloadIdentity" then workloadIdentityVirtualBinding
    else secretVirtualBinding in
  withMapping OfCredentialsBindings
    (fold_left (fun m tag => <[ownerKey +:+ "/" +:+ tag := literal owner tag]> m)
       (providerTypesFromLabels (labels (metadata owner))) kept)
    st.

Definition upsertAll (c : Collection) (records : option (list Resource)) (st : State)
  : State :=
  fold_left (fun st record => upsert c record st) (default [] records) st.

Definition synthesizeAll (c : Collection) (owners : option (list Resource)) (st : State)
  : State :=
  fold_left (fun st owner => synthesize (tagged c owner) st) (default [] owners) st.

(** [replaceAll] in the words of the specification (4.3): reset, upsert
    every element of every collection, and only then synthesize for every
    secret and every workload identity. *)
Definition replaceAll (p : Payload.t) (st : State) : State :=
  let st := reset in
  let st := upsertAll OfSecretBindings (Payload.secretBindings p) st in
  let st := upsertAll OfSecrets (Payload.secrets p) st in
  let st := upsertAll OfCredentialsBindings (Payload.credentialsBindings p) st in
  let st := upsertAll OfWorkloadIdentities (Payload.workloadIdentities p) st in
  let st := upsertAll OfQuotas (Payload.quotas p) st in
  let st := synthesizeAll OfSecrets (Payload.secrets p) st in
  synthesizeAll OfWorkloadIdentities (Payload.workloadIdentities p) st.

(** Collections as a list endpoint of the cluster delivers them: no
    namespace and no name has a ["/"] in it, and no two records of one
    collection have the same key. *)
Definition plainName (item : Resource) : Prop :=
  Js.hasSlash (namespace (metadata item)) = false
  /\ Js.hasSlash (name (metadata item)) = false.

Definition listed (records : option (list Resource)) : Prop :=
  Forall plainName (default [] records)
  /\ NoDup ((fun item => metadataKey (metadata item)) <$> default [] records).

(** What a round of the loops does to the credentials-bindings mapping:
    in [_setCredentials] an owner's round writes its virtual bindings and an
    explicit binding's round writes the binding; in [replaceAll] an owner's
    round is [synthesize]. *)
Definition writeVirtual (literal : Resource -> string -> Resource) (k : string)
    (m : gmap string Resource) (item : Resource) : gmap string Resource :=
  setVirtualBindings literal (metadataKey (metadata item)) (assignKind k item) m.

Definition writeExplicit (m : gmap string Resource) (item : Resource)
  : gmap string Resource :=
  <[metadataKey (metadata item) := assignKind "CredentialsBinding" item]> m.

Definition refreshVirtual (literal : Resource -> string -> Resource) (k : string)
    (m : gmap string Resource) (item : Resource) : gmap string Resource :=
  setVirtualBindings literal (metadataKey (metadata item)) (assignKind k item)
    (filter (fun entry => ownedBy (metadataKey (metadata item)) (Some k) entry.1 entry.2 = false)
       m).

(** The payload with an empty array for every collection it lacks. *)
Definition supplied (p : Payload.t) : Payload.t :=
  {| Payload.secretBindings := Some (default [] (Payload.secretBindings p));
     Payload.secrets := Some (default [] (Payload.secrets p));
     Payload.credentialsBindings := Some (default [] (Payload.credentialsBindings p));
     Payload.workloadIdentities := Some (default [] (Payload.workloadIdentities p));
     Payload.quotas := Some (default [] (Payload.quotas p)) |}.

(** A collection without records: missing, or an empty array. *)
Definition noRecords (records : option (list Resource)) : Prop :=
  default [] records = [].

(** The two shapes of an entry of the credentials-bindings mapping. *)
Definition explicitEntry (k : string) (v : Resource) : Prop :=
  kind v = Some "CredentialsBinding" /\ k = metadataKey (metadata v).

Definition virtualEntry (k : string) (v : Resource) : Prop :=
  exists owner tag,
    k = metadataKey (metadata owner) +:+ "/" +:+ tag
    /\ (v = secretVirtualBinding owner tag \/ v = workloadIdentityVirtualBinding owner tag).

Definition wellKeyed (m : gmap string Resource) : Prop :=
  forall k v, m !! k = Some v -> explicitEntry k v \/ virtualEntry k v.

(** ** The classified views *)

(** The helpers of [composables/credential/helper] and the two lists of
    provider types that the cloud-profile and extension stores supply. The
    store only filters with them, so they are taken as they come. *)
Record Classifiers := {
  isInfrastructureBinding : Resource -> list string -> bool;
  isDnsBinding : Resource -> list string -> bool;
  isSharedCredential : Resource -> bool;
  sortedProviderTypeList : list string;
  dnsProviderTypes : list string;
}.

Definition infrastructureBindingList (cls : Classifiers) (st : State) : list Resource :=
  List.filter
    (fun binding => isInfrastructureBinding cls binding (sortedProviderTypeList cls))
    (cloudProviderBindingList st).

Definition dnsBindingList (cls : Classifiers) (st : State) : list Resource :=
  List.filter
    (fun binding =>
       isDnsBinding cls binding (dnsProviderTypes cls)
       && negb (isSharedCredential cls binding))
    (cloudProviderBindingList st).

(** ** What the mappings hold *)

(** Every record is stored under its own key. *)
Definition ownKeyed (m : gmap string Resource) : Prop :=
  forall k v, m !! k = Some v -> k = metadataKey (metadata v).

(** Every record is of one kind. *)
Definition ofKind (k : string) (m : gmap string Resource) : Prop :=
  forall key v, m !! key = Some v -> kind v = Some k.

(** The kinds a binding of the binding list can have. *)
Definition bindingKind (v : Resource) : Prop :=
  kind v = Some "SecretBinding"
  \/ kind v = Some "CredentialsBinding"
  \/ kind v = Some "Secret"
  \/ kind v = Some "WorkloadIdentity".

(** The store keeps its records where their keys say. *)
Definition storeKeyed (st : State) : Prop :=
  (ownKeyed (secretBindings st) /\ ofKind "SecretBinding" (secretBindings st))
  /\ ownKeyed (secrets st)
  /\ (ownKeyed (workloadIdentities st) /\ ofKind "WorkloadIdentity" (workloadIdentities st))
  /\ ownKeyed (quotas st).

(** An entry point has told the app store of its success exactly when it
    has succeeded, and then once. *)
Definition notifiedOnce (w : World) (r : World * outcome unit) : Prop :=
  match r.2 with
  | Resolved _ => exists message, alerts r.1 = (alerts w ++ [message])%list
  | Rejected _ => alerts r.1 = alerts w
  end.

(** The payload with other secrets. *)
Definition withSecrets (p : Payload.t) (secrets : list Resource) : Payload.t :=
  {| Payload.secretBindings := Payload.secretBindings p;
     Payload.secrets := Some secrets;
     Payload.credentialsBindings := Payload.credentialsBindings p;
     Payload.workloadIdentities := Payload.workloadIdentities p;
     Payload.quotas := Payload.quotas p |}.

(** ** Sample records *)

Module Sample.

Definition labelled (tags : list string) : Js.jsobj string :=
  (fun tag => (providerPrefix +:+ tag, "true")) <$> tags.

Definition resource (kind : option string) (namespace name uid : string)
    (tags : list string) : Resource :=
  {| kind := kind;
     apiVersion := None;
     metadata := {| namespace := namespace; name := name; uid := uid;
                    labels := Some (labelled tags); annotations := [] |};
     provider := None;
     secretRef := None;
     credentialsRef := None;
     data := [] |}.

Definition payload (secretBindings secrets credentialsBindings workloadIdentities quotas
                    : list Resource) : Payload.t :=
  {| Payload.secretBindings := Some secretBindings;
     Payload.secrets := Some secrets;
     Payload.credentialsBindings := Some credentialsBindings;
     Payload.workloadIdentities := Some workloadIdentities;
     Payload.quotas := Some quotas |}.

(** A secret labelled for two providers, and the same secret after one
    label was dropped and another added. *)
Definition secretAwsGcp : Resource := resource (Some "Secret") "a" "s1" "u1" ["aws"; "gcp"].
Definition secretGcpAzure : Resource := resource (Some "Secret") "a" "s1" "u1" ["gcp"; "azure"].

(** The same for a workload identity. *)
Definition identityAwsGcp : Resource :=
  resource (Some "WorkloadIdentity") "a" "w1" "u2" ["aws"; "gcp"].

(** An explicit binding with the namespace and the name of the secret. *)
Definition explicitBinding : Resource :=
  {| kind := Some "CredentialsBinding";
     apiVersion := Some "security.gardener.cloud/v1alpha1";
     metadata := {| namespace := "a"; name := "s1"; uid := "u3";
                    labels := None; annotations := [] |};
     provider := Some {| type := "aws" |};
     secretRef := None;
     credentialsRef := Some {| cref_name := "s1"; cref_namespace := "a";
                               cref_kind := "Secret"; cref_apiVersion := Some "v1" |};
     data := [] |}.

Definition afterFetch (p : Payload.t) : State := _setCredentials p reset.

(** A backend that cannot be reached, and one that serves a fixed payload
    and echoes what it is asked to create or update. *)
Definition unreachableApi : Api :=
  {| getCloudProviderCredentials := fun _ => Rejected (BackendError "ECONNREFUSED");
     createCloudProviderCredential := fun _ => Rejected (BackendError "ECONNREFUSED");
     updateCloudProviderCredential := fun _ => Rejected (BackendError "ECONNREFUSED");
     deleteCloudProviderCredential := fun _ _ _ => Rejected (BackendError "ECONNREFUSED") |}.

Definition servingApi (p : Payload.t) : Api :=
  {| getCloudProviderCredentials := fun _ => Resolved {| body := Some p |};
     createCloudProviderCredential := fun c => Resolved {| body := Some c |};
     updateCloudProviderCredential :=
       fun s => Resolved {| body := Some {| binding := None; secret := s |} |};
     deleteCloudProviderCredential := fun _ _ _ => Resolved tt |}.

(** A backend that answers the fetch without a body. *)
Definition bodylessApi : Api :=
  {| getCloudProviderCredentials := fun _ => Resolved {| body := None |};
     createCloudProviderCredential := fun _ => Resolved {| body := None |};
     updateCloudProviderCredential := fun _ => Resolved {| body := None |};
     deleteCloudProviderCredential := fun _ _ _ => Resolved tt |}.

(** The session before its first fetch. *)
Definition initial : World := {| state := reset; alerts := [] |}.

(** A session that has fetched a secret and an explicit binding. *)
Definition populated : World :=
  {| state := afterFetch (payload [] [secretAwsGcp] [explicitBinding] [] []);
     alerts := ["Cloud Provider credential s1 created"] |}.

(** A record that arrives in the credentials-bindings collection with
    another kind already set, and a quota that arrives without a kind. *)
Definition mislabelled : Resource := resource (Some "SecretBinding") "a" "b1" "u4" [].
Definition quotaNoKind : Resource := resource None "a" "q1" "u5" [].

(** Two records of one collection with the same namespace and name, and
    an explicit binding whose name has a ["/"] in it. *)
Definition secretAwsOnly : Resource := resource (Some "Secret") "a" "s1" "u1" ["aws"].
Definition secretGcpOnly : Resource := resource (Some "Secret") "a" "s1" "u1" ["gcp"].
Definition explicitSlash : Resource :=
  resource (Some "CredentialsBinding") "a" "s1/aws" "u6" [].

(** The secret of the end-to-end example of the specification. *)
Definition secretAws : Resource := resource None "a" "s1" "u1" ["aws"].

(** A workload identity with the namespace and the name of [secretAwsGcp]. *)
Definition identitySameName : Resource :=
  resource (Some "WorkloadIdentity") "a" "s1" "u7" ["gcp"].

(** A secret binding, a second secret and two quotas. *)
Definition secretBinding : Resource := resource (Some "SecretBinding") "a" "b1" "u8" [].
Definition otherSecret : Resource := resource (Some "Secret") "a" "s2" "u9" ["aws"].
Definition quotaA : Resource := resource (Some "Quota") "a" "q1" "u10" [].
Definition quotaB : Resource := resource (Some "Quota") "a" "q2" "u11" [].

(** A backend that answers a create with the secret only. *)
Definition secretOnlyApi : Api :=
  {| getCloudProviderCredentials := fun _ => Rejected (BackendError "ECONNREFUSED");
     createCloudProviderCredential :=
       fun c => Resolved {| body := Some {| binding := None; secret := secret c |} |};
     updateCloudProviderCredential :=
       fun _ => Resolved {| body := Some {| binding := None; secret := None |} |};
     deleteCloudProviderCredential := fun _ _ _ => Resolved tt |}.

(** A backend that deletes and then cannot be reached for the fetch. *)
Definition deleteOnlyApi : Api :=
  {| getCloudProviderCredentials := fun _ => Rejected (BackendError "ECONNREFUSED");
     createCloudProviderCredential := fun _ => Rejected (BackendError "ECONNREFUSED");
     updateCloudProviderCredential := fun _ => Rejected (BackendError "ECONNREFUSED");
     deleteCloudProviderCredential := fun _ _ _ => Resolved tt |}.

(** Classifiers that go by the provider type and treat nothing as shared. *)
Definition byProviderType : Classifiers :=
  {| isInfrastructureBinding :=
       fun b types =>
         match provider b with
         | Some p => bool_decide (type p ∈ types)
         | None => false
         end;
     isDnsBinding :=
       fun b types =>
         match provider b with
         | Some p => bool_decide (type p ∈ types)
         | None => false
         end;
     isSharedCredential := fun _ => false;
     sortedProviderTypeList := ["aws"; "gcp"];
     dnsProviderTypes := ["aws"] |}.

End Sample.

(** * Properties *)

(** ** Strings *)

Section StringFacts.

Lemma append_cons (x : ascii) (a b : string) : String x a +:+ b = String x (a +:+ b).
Proof. reflexivity. Qed.

Lemma append_inj_r (a b c : string) : a +:+ b = a +:+ c -> b = c.
Proof.
  induction a as [|x a IH]; [done|].
  rewrite !append_cons. intros H. injection H as H. by apply IH.
Qed.

Lemma append_empty_r (a : string) : a +:+ "" = a.
Proof. induction a as [|x a IH]; [done|]. rewrite append_cons. by f_equal. Qed.

Lemma append_nonempty_ne (a b : string) : b <> "" -> a <> a +:+ b.
Proof.
  intros Hb H. apply Hb. apply (append_inj_r a). rewrite append_empty_r. by symmetry.
Qed.

Lemma append_assoc (a b c : string) : (a +:+ b) +:+ c = a +:+ (b +:+ c).
Proof. induction a as [|x a IH]; [done|]. rewrite !append_cons. by f_equal. Qed.

(** A text without ["/"] in front of a ["/"] can be read off in one way. *)
Lemma slash_split (a a' r r' : string) :
  Js.hasSlash a = false -> Js.hasSlash a' = false ->
  a +:+ "/" +:+ r = a' +:+ "/" +:+ r' -> a = a' /\ r = r'.
Proof.
  revert a'. induction a as [|x a IH]; intros [|y a'] Ha Ha' H.
  - change (String "/" r = String "/" r') in H. by injection H as ->.
  - change (String "/" r = String y (a' +:+ "/" +:+ r')) in H.
    injection H as <- _. by cbn in Ha'.
  - change (String x (a +:+ "/" +:+ r) = String "/" r') in H.
    injection H as -> _. by cbn in Ha.
  - change (String x (a +:+ "/" +:+ r) = String y (a' +:+ "/" +:+ r')) in H.
    injection H as -> H. cbn [Js.hasSlash] in Ha, Ha'.
    apply orb_false_iff in Ha as [_ Ha]. apply orb_false_iff in Ha' as [_ Ha'].
    by destruct (IH _ Ha Ha' H) as [-> ->].
Qed.

Lemma hasSlash_append (a b : string) : Js.hasSlash (a +:+ "/" +:+ b) = true.
Proof.
  induction a as [|x a IH]; [done|].
  rewrite append_cons. cbn [Js.hasSlash]. rewrite IH. apply orb_true_r.
Qed.

Lemma unsafeKey_noSlash (k : string) : unsafeKey k = true -> Js.hasSlash k = false.
Proof.
  unfold unsafeKey. intros H.
  apply orb_true_iff in H as [H|H]; [apply orb_true_iff in H as [H|H]|];
    apply String.eqb_eq in H; by subst.
Qed.

Lemma unsafeKey_slash (a b : string) : unsafeKey (a +:+ "/" +:+ b) = false.
Proof.
  destruct (unsafeKey (a +:+ "/" +:+ b)) eqn:E; [|done].
  apply unsafeKey_noSlash in E. by rewrite hasSlash_append in E.
Qed.

Lemma startsWith_append (p r : string) : Js.startsWith (p +:+ r) p = true.
Proof.
  unfold Js.startsWith. induction p as [|x p IH]; [by destruct r|].
  rewrite append_cons. cbn [String.prefix]. by destruct (Ascii.ascii_dec x x).
Qed.

Lemma startsWith_inv (s p : string) :
  Js.startsWith s p = true -> exists r, s = p +:+ r.
Proof.
  unfold Js.startsWith. revert s.
  induction p as [|x p IH]; intros s H; [by exists s|].
  destruct s as [|y s]; [done|]. cbn [String.prefix] in H.
  destruct (Ascii.ascii_dec x y) as [->|]; [|done].
  destruct (IH _ H) as [r ->]. by exists r.
Qed.

Lemma slice_append (p r : string) : Js.slice (String.length p) (p +:+ r) = r.
Proof. induction p as [|x p IH]; [by destruct r|done]. Qed.

Lemma stripPrefix_append (p t : string) : stripPrefix p (p +:+ t) = Some t.
Proof.
  induction p as [|x p IH]; [done|].
  rewrite append_cons. cbn [stripPrefix]. by rewrite Ascii.eqb_refl.
Qed.

Lemma stripPrefix_Some (p s t : string) : stripPrefix p s = Some t <-> s = p +:+ t.
Proof.
  split; [|intros ->; apply stripPrefix_append].
  revert s. induction p as [|x p IH]; intros s; [by intros [= ->]|].
  destruct s as [|y s]; [done|]. cbn [stripPrefix].
  destruct (Ascii.eqb x y) eqn:E; [|done].
  apply Ascii.eqb_eq in E as ->. intros H. by rewrite (IH _ H).
Qed.

Lemma stripPrefix_startsWith (p s : string) :
  stripPrefix p s = if Js.startsWith s p then Some (Js.slice (String.length p) s) else None.
Proof.
  destruct (Js.startsWith s p) eqn:E.
  - destruct (startsWith_inv _ _ E) as [r ->].
    by rewrite stripPrefix_append, slice_append.
  - destruct (stripPrefix p s) as [t|] eqn:E'; [|done].
    apply stripPrefix_Some in E' as ->. by rewrite startsWith_append in E.
Qed.

End StringFacts.
(** ** The capability extractor *)

Section Extractor.

Lemma insert_by_index_elem {V} (e x : N * (string * V)) l :
  x ∈ Js.insert_by_index e l -> x = e \/ x ∈ l.
Proof.
  induction l as [|e' l IH]; cbn [Js.insert_by_index].
  - rewrite list_elem_of_singleton. by left.
  - destruct (e.1 <=? e'.1)%N; rewrite !elem_of_cons; [tauto|].
    intros [->|H]; [tauto|]. destruct (IH H); tauto.
Qed.

Lemma sort_by_index_elem {V} (x : N * (string * V)) l :
  x ∈ Js.sort_by_index l -> x ∈ l.
Proof.
  induction l as [|e l IH]; cbn; [done|].
  intros H. apply insert_by_index_elem in H as [->|H]; [left|right; by apply IH].
Qed.

Lemma array_index_digit key i :
  Js.array_index key = Some i -> exists c rest, key = String c rest /\ Js.is_digit c = true.
Proof.
  destruct key as [|c rest]; [done|]. cbn [Js.array_index].
  destruct (Js.is_digit c) eqn:E; [|done]. by exists c, rest.
Qed.

(** No array index starts with the capability prefix. *)
Lemma array_index_not_provider key i :
  Js.array_index key = Some i -> Js.startsWith key providerPrefix = false.
Proof.
  intros H. destruct (array_index_digit _ _ H) as (c & rest & -> & Hc).
  unfold Js.startsWith, providerPrefix. cbn [String.prefix].
  destruct (Ascii.ascii_dec "p" c) as [<-|]; [done|done].
Qed.

Lemma selected_not_index e : selected e = true -> Js.array_index e.1 = None.
Proof.
  destruct e as [k v]. cbn. intros H. apply andb_true_iff in H as [_ H].
  destruct (Js.array_index k) eqn:E; [|done].
  apply array_index_not_provider in E. congruence.
Qed.

Lemma filter_none {A} (f : A -> bool) (l : list A) :
  (forall x, x ∈ l -> f x = false) -> List.filter f l = [].
Proof.
  induction l as [|x l IH]; [done|]. intros H. cbn [List.filter].
  rewrite (H x) by left. apply IH. intros y Hy. apply H. by right.
Qed.

Lemma filter_selected_entries (o : Js.jsobj string) :
  List.filter selected (Js.Object_entries o) = List.filter selected o.
Proof.
  unfold Js.Object_entries. rewrite List.filter_app.
  assert (List.filter selected (map snd (Js.sort_by_index (omap Js.indexed o))) = []) as ->.
  { apply filter_none. intros e He.
    apply list_elem_of_fmap in He as ([i e'] & -> & He).
    apply sort_by_index_elem, list_elem_of_omap in He as (e0 & _ & He0).
    unfold Js.indexed in He0. destruct (Js.array_index e0.1) eqn:E; [|done].
    injection He0 as <- <-. cbn.
    destruct (selected e0) eqn:Es; [|done].
    apply selected_not_index in Es. congruence. }
  cbn [app]. induction o as [|e o IH]; [done|]. cbn [List.filter].
  destruct (selected e) eqn:Es.
  - rewrite (selected_not_index _ Es).
    rewrite bool_decide_eq_false_2 by (by intros [? ?]).
    cbn [negb List.filter]. by rewrite Es, IH.
  - destruct (negb _); cbn [List.filter]; by rewrite ?Es, IH.
Qed.

Lemma providerTypes_insertion_order (o : Js.jsobj string) :
  providerTypesFromLabels (Some o) = capabilityTags o.
Proof.
  unfold providerTypesFromLabels, capabilityTags. cbn [default from_option id].
  rewrite filter_selected_entries.
  induction o as [|[k v] o IH]; [done|].
  change (omap capabilityTag ((k, v) :: o))
    with (match capabilityTag (k, v) with
          | Some tag => tag :: omap capabilityTag o
          | None => omap capabilityTag o
          end).
  unfold capabilityTag. cbn [List.filter selected fst snd].
  rewrite stripPrefix_startsWith.
  destruct (String.eqb v "true"), (Js.startsWith k providerPrefix);
    cbn [andb map]; by rewrite ?IH.
Qed.

End Extractor.

(** C8. For every label object, the capability extractor returns exactly the
    tags of the label keys that start with ["provider.shoot.gardener.cloud/"]
    and carry the value ["true"], with the prefix stripped and in the
    insertion order of the label object (keys the language would list out of
    insertion order are array indices, and never selected); a missing or an
    empty label object gives the empty sequence. *)
Theorem C8_capability_extractor :
  (forall labels : Js.jsobj string,
      providerTypesFromLabels (Some labels) = omap capabilityTag labels)
  /\ (forall key value tag,
        capabilityTag (key, value) = Some tag
        <-> value = "true" /\ key = providerPrefix +:+ tag)
  /\ providerTypesFromLabels None = []
  /\ providerTypesFromLabels (Some []) = [].
Proof.
  split; [exact providerTypes_insertion_order|].
  split; [|done].
  intros key value tag. unfold capabilityTag. cbn [fst snd].
  destruct (String.eqb value "true") eqn:E.
  - apply String.eqb_eq in E. rewrite stripPrefix_Some. tauto.
  - apply String.eqb_neq in E. split; [done|tauto].
Qed.

Lemma C8_capability_extractor_witness :
  providerTypesFromLabels
    (Some [("provider.shoot.gardener.cloud/gcp", "true");
           ("10", "true");
           ("provider.shoot.gardener.cloud/aws", "true");
           ("2", "true");
           ("provider.shoot.gardener.cloud/azure", "false");
           ("app", "true")])
  = ["gcp"; "aws"]
  /\ (capabilityTag ("provider.shoot.gardener.cloud/aws", "true") = Some "aws"
      <-> "true" = "true"
          /\ "provider.shoot.gardener.cloud/aws" = providerPrefix +:+ "aws").
Proof.
  destruct C8_capability_extractor as (Horder & Htag & _ & _).
  split; [by rewrite Horder|apply Htag].
Defined.

(** [Object.entries] lists the array indices first, in numeric order. *)
Example Object_entries_order :
  Js.Object_entries [("b", "1"); ("10", "2"); ("2", "3"); ("a", "4"); ("01", "5")]
  = [("2", "3"); ("10", "2"); ("b", "1"); ("a", "4"); ("01", "5")].
Proof. reflexivity. Qed.

(** A label with the bare prefix as its key gives the empty tag. *)
Example providerTypes_empty_tag :
  providerTypesFromLabels
    (Some [("provider.shoot.gardener.cloud/", "true");
           ("provider.shoot.gardener.cloud/aws", "True");
           ("xprovider.shoot.gardener.cloud/gcp", "true")])
  = [""].
Proof. reflexivity. Qed.

(** ** Writes, the purge loop and the virtual bindings *)

Section StoreFacts.

Implicit Types (m : gmap string Resource) (k key : string) (item v : Resource).

Lemma set_slash m (a b : string) v :
  set m (a +:+ "/" +:+ b) v = <[a +:+ "/" +:+ b := v]> m.
Proof. unfold set. by rewrite unsafeKey_slash. Qed.

Lemma set_metadataKey m (md : Metadata) v :
  set m (metadataKey md) v = <[metadataKey md := v]> m.
Proof. apply set_slash. Qed.

Lemma virtualKey_inj key (t t' : string) :
  key +:+ "/" +:+ t = key +:+ "/" +:+ t' -> t = t'.
Proof. intros H. apply append_inj_r in H. by apply (append_inj_r "/") in H. Qed.

Lemma virtualKey_ne key (t : string) : key <> key +:+ "/" +:+ t.
Proof. by apply append_nonempty_ne. Qed.

Lemma ownedBy_purgeStep key m k :
  purgeStep key m k =
    match m !! k with
    | Some item => if ownedBy key (Some "Secret") k item then delete k m else m
    | None => m
    end.
Proof.
  unfold purgeStep, ownedBy, kindIs.
  destruct (String.eqb k key || Js.startsWith k (key +:+ "/")); [done|].
  by destruct (m !! k).
Qed.

(** What the loop leaves of an object after it has visited the keys [ks]. *)
Lemma lookup_fold_purgeStep key (ks : list string) m k :
  fold_left (purgeStep key) ks m !! k =
    match m !! k with
    | Some item =>
        if bool_decide (k ∈ ks) && ownedBy key (Some "Secret") k item then None
        else Some item
    | None => None
    end.
Proof.
  revert m. induction ks as [|a ks IH]; intros m.
  - cbn. by destruct (m !! k).
  - cbn [fold_left]. rewrite IH, ownedBy_purgeStep.
    destruct (decide (k = a)) as [->|Hne].
    + rewrite (bool_decide_eq_true_2 (a ∈ a :: ks)) by left.
      destruct (m !! a) as [item|] eqn:Ea; [|by rewrite Ea].
      destruct (ownedBy key (Some "Secret") a item) eqn:Eo.
      * by rewrite lookup_delete_eq.
      * rewrite Ea, Eo. by rewrite andb_false_r.
    + assert (bool_decide (k ∈ a :: ks) = bool_decide (k ∈ ks)) as ->.
      { apply bool_decide_ext. rewrite elem_of_cons. intuition congruence. }
      destruct (m !! a) as [item|] eqn:Ea; [|done].
      destruct (ownedBy key (Some "Secret") a item); [|done].
      by rewrite lookup_delete_ne.
Qed.

Lemma elem_of_Object_keys m k : k ∈ Object_keys m <-> is_Some (m !! k).
Proof.
  unfold Object_keys. rewrite list_elem_of_fmap. split.
  - intros ([k' v] & -> & H). apply elem_of_map_to_list in H. by exists v.
  - intros [v H]. exists (k, v). split; [done|]. by apply elem_of_map_to_list.
Qed.

Lemma lookup_purgeVirtualBindings key m k :
  purgeVirtualBindings key m !! k =
    match m !! k with
    | Some item => if ownedBy key (Some "Secret") k item then None else Some item
    | None => None
    end.
Proof.
  unfold purgeVirtualBindings. rewrite lookup_fold_purgeStep.
  destruct (m !! k) as [item|] eqn:E; [|done].
  rewrite bool_decide_eq_true_2; [done|]. apply elem_of_Object_keys. by exists item.
Qed.

(** The loop is the removal of the entries the secret owns. *)
Lemma purgeVirtualBindings_filter key m :
  purgeVirtualBindings key m =
    filter (fun entry => ownedBy key (Some "Secret") entry.1 entry.2 = false) m.
Proof.
  apply map_eq. intros k. rewrite lookup_purgeVirtualBindings, map_lookup_filter.
  destruct (m !! k) as [item|]; [|done]. cbn.
  destruct (ownedBy key (Some "Secret") k item) eqn:E.
  - by rewrite option_guard_False.
  - by rewrite option_guard_True.
Qed.

(** Every read [object[k]] of the loop finds a record. *)
Lemma purge_read_defined key m (visited : list string) k (rest : list string) :
  Object_keys m = (visited ++ k :: rest)%list ->
  is_Some (fold_left (purgeStep key) visited m !! k).
Proof.
  intros Hkeys. rewrite lookup_fold_purgeStep.
  assert (is_Some (m !! k)) as [item ->].
  { apply elem_of_Object_keys. rewrite Hkeys, elem_of_app. right. left. }
  assert (k ∉ visited) as Hk.
  { pose proof (NoDup_fst_map_to_list m) as Hnd.
    unfold Object_keys in Hkeys. rewrite Hkeys in Hnd.
    apply NoDup_app in Hnd as (_ & Hnd & _). intros Hin.
    apply (Hnd _ Hin). left. }
  rewrite bool_decide_eq_false_2 by done. by eexists.
Qed.

Lemma fold_set_snoc (literal : Resource -> string -> Resource) key item
    (ts : list string) (t : string) m :
  fold_left (fun object type => set object (key +:+ "/" +:+ type) (literal item type))
    (ts ++ [t])%list m
  = <[key +:+ "/" +:+ t := literal item t]>
      (fold_left (fun object type => set object (key +:+ "/" +:+ type) (literal item type))
         ts m).
Proof. by rewrite fold_left_app, <- set_slash. Qed.

Lemma lookup_fold_set_tag literal key item (ts : list string) (t : string) m :
  t ∈ ts ->
  fold_left (fun object type => set object (key +:+ "/" +:+ type) (literal item type))
    ts m !! (key +:+ "/" +:+ t) = Some (literal item t).
Proof.
  induction ts as [|t' ts IH] using rev_ind; [by intros ?%elem_of_nil|].
  rewrite fold_set_snoc, elem_of_app, list_elem_of_singleton.
  destruct (decide (t = t')) as [->|Hne]; [by rewrite lookup_insert_eq|].
  intros [H|H]; [|done]. rewrite lookup_insert_ne; [by apply IH|].
  intros Heq. by apply virtualKey_inj in Heq.
Qed.

Lemma lookup_fold_set_other literal key item (ts : list string) k m :
  (forall t, t ∈ ts -> k <> key +:+ "/" +:+ t) ->
  fold_left (fun object type => set object (key +:+ "/" +:+ type) (literal item type))
    ts m !! k = m !! k.
Proof.
  induction ts as [|t' ts IH] using rev_ind; [done|]. intros H.
  rewrite fold_set_snoc, lookup_insert_ne.
  - apply IH. intros t Ht. apply H. rewrite elem_of_app. by left.
  - intros Heq. apply (H t'); [|done]. rewrite elem_of_app. right. left.
Qed.

Lemma lookup_setVirtualBindings_tag literal key item m (t : string) :
  t ∈ providerTypesFromLabels (labels (metadata item)) ->
  setVirtualBindings literal key item m !! (key +:+ "/" +:+ t) = Some (literal item t).
Proof. apply lookup_fold_set_tag. Qed.

Lemma lookup_setVirtualBindings_other literal key item m k :
  (forall t, t ∈ providerTypesFromLabels (labels (metadata item)) -> k <> key +:+ "/" +:+ t) ->
  setVirtualBindings literal key item m !! k = m !! k.
Proof. apply lookup_fold_set_other. Qed.

(** Either way to look at one key after the virtual bindings are written. *)
Lemma lookup_setVirtualBindings literal key item m k :
  (exists t, t ∈ providerTypesFromLabels (labels (metadata item))
             /\ k = key +:+ "/" +:+ t
             /\ setVirtualBindings literal key item m !! k = Some (literal item t))
  \/ ((forall t, t ∈ providerTypesFromLabels (labels (metadata item)) -> k <> key +:+ "/" +:+ t)
      /\ setVirtualBindings literal key item m !! k = m !! k).
Proof.
  destruct (decide (k ∈ (fun t => key +:+ "/" +:+ t)
                        <$> providerTypesFromLabels (labels (metadata item)))) as [Hin|Hout].
  - left. apply list_elem_of_fmap in Hin as (t & -> & Ht). exists t.
    split; [done|]. split; [done|]. by apply lookup_setVirtualBindings_tag.
  - right. assert (forall t, t ∈ providerTypesFromLabels (labels (metadata item)) ->
                             k <> key +:+ "/" +:+ t) as H.
    { intros t Ht ->. apply Hout, list_elem_of_fmap. by exists t. }
    split; [done|]. by apply lookup_setVirtualBindings_other.
Qed.

End StoreFacts.

(** ** The refresh of a secret's virtual bindings *)

Section Refresh.

Implicit Types (st : State) (secret : Resource) (k : string).

Lemma startsWith_virtualKey (key t : string) :
  Js.startsWith (key +:+ "/" +:+ t) (key +:+ "/") = true.
Proof. rewrite <- append_assoc. apply startsWith_append. Qed.

Lemma ownedBy_virtual key (owner : Resource) (t : string) :
  ownedBy key (Some "Secret") (key +:+ "/" +:+ t) (secretVirtualBinding owner t) = true.
Proof.
  unfold ownedBy. rewrite startsWith_virtualKey, orb_true_r. done.
Qed.

Lemma lookup_updateSecret_tag st secret (t : string) :
  t ∈ providerTypesFromLabels (labels (metadata secret)) ->
  credentialsBindings (updateSecret secret st) !! (metadataKey (metadata secret) +:+ "/" +:+ t)
  = Some (secretVirtualBinding secret t).
Proof. apply lookup_setVirtualBindings_tag. Qed.

Lemma lookup_updateSecret_other st secret k :
  (forall t, t ∈ providerTypesFromLabels (labels (metadata secret)) ->
             k <> metadataKey (metadata secret) +:+ "/" +:+ t) ->
  credentialsBindings (updateSecret secret st) !! k
  = match credentialsBindings st !! k with
    | Some item =>
        if ownedBy (metadataKey (metadata secret)) (Some "Secret") k item then None
        else Some item
    | None => None
    end.
Proof.
  intros H. cbn [updateSecret credentialsBindings].
  by rewrite lookup_setVirtualBindings_other, lookup_purgeVirtualBindings.
Qed.

Lemma updateSecret_removes st secret k (v : Resource) :
  credentialsBindings st !! k = Some v ->
  credentialsBindings (updateSecret secret st) !! k = None ->
  kind v = Some "Secret"
  /\ (k = metadataKey (metadata secret)
      \/ Js.startsWith k (metadataKey (metadata secret) +:+ "/") = true).
Proof.
  intros Hk Hgone.
  destruct (lookup_setVirtualBindings secretVirtualBinding
              (metadataKey (metadata secret)) secret
              (purgeVirtualBindings (metadataKey (metadata secret))
                 (credentialsBindings st)) k)
    as [(t & _ & _ & Ht)|(Hne & _)].
  - cbn [updateSecret credentialsBindings] in Hgone. congruence.
  - rewrite (lookup_updateSecret_other _ _ _ Hne), Hk in Hgone.
    unfold ownedBy in Hgone.
    destruct (String.eqb k _ || Js.startsWith k _) eqn:Ekey; [|done].
    destruct (bool_decide (kind v = Some "Secret")) eqn:Ekind; [|done].
    apply bool_decide_eq_true_1 in Ekind. split; [done|].
    apply orb_true_iff in Ekey as [Ekey%String.eqb_eq|Ekey]; [by left|by right].
Qed.

Lemma updateSecret_keeps_explicit st secret (explicit : Resource) :
  kind explicit = Some "CredentialsBinding" ->
  namespace (metadata explicit) = namespace (metadata secret) ->
  name (metadata explicit) = name (metadata secret) ->
  credentialsBindings st !! metadataKey (metadata explicit) = Some explicit ->
  credentialsBindings (updateSecret secret st) !! metadataKey (metadata explicit)
  = Some explicit.
Proof.
  intros Hkind Hns Hname Hstored.
  assert (metadataKey (metadata explicit) = metadataKey (metadata secret)) as Hkey.
  { unfold metadataKey. by rewrite Hns, Hname. }
  rewrite lookup_updateSecret_other.
  - rewrite Hstored. unfold ownedBy.
    rewrite (bool_decide_eq_false_2 (kind explicit = Some "Secret")) by congruence.
    by rewrite andb_false_r.
  - intros t _. rewrite Hkey. apply virtualKey_ne.
Qed.

Lemma State_eq (a b : State) :
  secretBindings a = secretBindings b ->
  secrets a = secrets b ->
  credentialsBindings a = credentialsBindings b ->
  workloadIdentities a = workloadIdentities b ->
  quotas a = quotas b ->
  a = b.
Proof. destruct a, b. cbn. by intros -> -> -> -> ->. Qed.

Lemma updateSecret_bindings_idempotent st secret :
  credentialsBindings (updateSecret secret (updateSecret secret st))
  = credentialsBindings (updateSecret secret st).
Proof.
  apply map_eq. intros k.
  destruct (lookup_setVirtualBindings secretVirtualBinding
              (metadataKey (metadata secret)) secret
              (purgeVirtualBindings (metadataKey (metadata secret))
                 (credentialsBindings (updateSecret secret st))) k)
    as [(t & Ht & -> & Hk)|(Hne & Hk)].
  - by rewrite !lookup_updateSecret_tag.
  - etransitivity; [exact Hk|].
    rewrite lookup_purgeVirtualBindings, (lookup_updateSecret_other _ _ _ Hne).
    destruct (credentialsBindings st !! k) as [item|]; [|done].
    destruct (ownedBy _ _ k item) eqn:E; [done|]. by rewrite E.
Qed.

Lemma updateSecret_idempotent st secret :
  updateSecret secret (updateSecret secret st) = updateSecret secret st.
Proof.
  apply State_eq; [done| |apply updateSecret_bindings_idempotent|done|done].
  cbn [updateSecret secrets]. rewrite !set_metadataKey. apply insert_insert_eq.
Qed.

End Refresh.

(** C2. For every store state and every secret, re-synthesizing the
    secret's virtual bindings (a call of [_updateCloudProviderCredential]
    with the secret) removes from the credentials-bindings mapping only
    entries of kind ["Secret"] whose key is the secret's key or starts with
    that key followed by ["/"]. An explicit record of kind
    ["CredentialsBinding"] with the namespace and name of the secret, stored
    under its key, is still there, unchanged, after the call; and so is one
    that the same call stores as its binding. *)
Theorem C2_refresh_removes_only_own_virtual_bindings (st : State) (secret : Resource) :
  let st' := _updateCloudProviderCredential None (Some secret) st in
  (forall k v,
      credentialsBindings st !! k = Some v ->
      credentialsBindings st' !! k = None ->
      kind v = Some "Secret"
      /\ (k = metadataKey (metadata secret)
          \/ Js.startsWith k (metadataKey (metadata secret) +:+ "/") = true))
  /\ (forall explicit,
        kind explicit = Some "CredentialsBinding" ->
        namespace (metadata explicit) = namespace (metadata secret) ->
        name (metadata explicit) = name (metadata secret) ->
        (credentialsBindings st !! metadataKey (metadata explicit) = Some explicit ->
         credentialsBindings st' !! metadataKey (metadata explicit) = Some explicit)
        /\ credentialsBindings
             (_updateCloudProviderCredential (Some explicit) (Some secret) st)
           !! metadataKey (metadata explicit) = Some explicit).
Proof.
  cbn [_updateCloudProviderCredential whenDefined]. split.
  - apply updateSecret_removes.
  - intros explicit Hkind Hns Hname. split.
    + by apply updateSecret_keeps_explicit.
    + apply updateSecret_keeps_explicit; [done|done|done|].
      unfold updateBinding, kindIs. rewrite Hkind.
      cbn [credentialsBindings bool_decide decide_rel].
      rewrite bool_decide_eq_false_2 by discriminate.
      rewrite bool_decide_eq_true_2 by done.
      cbn [credentialsBindings]. by rewrite set_metadataKey, lookup_insert_eq.
Qed.

(** C3. For every store state and every owner record handed to the
    refresh, running the refresh a second time with the same record changes
    nothing: the credentials-bindings mapping has the same keys and, under
    every key, the same record as after the first run (and so has the rest
    of the store). *)
Theorem C3_refresh_idempotent (st : State) (owner : Resource) :
  let once := _updateCloudProviderCredential None (Some owner) st in
  let twice := _updateCloudProviderCredential None (Some owner) once in
  twice = once
  /\ dom (credentialsBindings twice) = dom (credentialsBindings once)
  /\ (forall k, credentialsBindings twice !! k = credentialsBindings once !! k).
Proof.
  cbn [_updateCloudProviderCredential whenDefined].
  by rewrite updateSecret_idempotent.
Qed.

Lemma C3_refresh_idempotent_witness :
  let once :=
    _updateCloudProviderCredential None (Some Sample.secretGcpAzure) Sample.populated.(state) in
  _updateCloudProviderCredential None (Some Sample.secretGcpAzure) once = once.
Proof.
  intros once.
  exact (proj1 (C3_refresh_idempotent Sample.populated.(state) Sample.secretGcpAzure)).
Defined.

(** The refresh on a sample store: the binding for the dropped label goes,
    the explicit binding of the same name stays. *)
Example updateSecret_sample :
  dom (credentialsBindings (updateSecret Sample.secretGcpAzure Sample.populated.(state)))
  = ({["a/s1"; "a/s1/gcp"; "a/s1/azure"]} : gset string).
Proof. vm_compute. reflexivity. Qed.

(** The loop visits the keys in whatever order they are listed. *)
Example purgeStep_sample :
  fold_left (purgeStep "a/s1") ["a/s1/gcp"; "a/s1"; "a/s1/aws"; "b/s1/aws"]
    (credentialsBindings Sample.populated.(state))
  = {["a/s1" := Sample.explicitBinding]}.
Proof. vm_compute. reflexivity. Qed.

(** C2, on a store that holds the secret's two virtual bindings and an
    explicit binding of the same namespace and name: updating the secret to
    other labels removes the virtual binding for ["aws"], which is of kind
    ["Secret"], and keeps the explicit binding. *)
Lemma C2_refresh_witness :
  let st := Sample.populated.(state) in
  (kind (secretVirtualBinding Sample.secretAwsGcp "aws") = Some "Secret"
   /\ ("a/s1/aws" = metadataKey (metadata Sample.secretGcpAzure)
       \/ Js.startsWith "a/s1/aws" (metadataKey (metadata Sample.secretGcpAzure) +:+ "/") = true))
  /\ credentialsBindings
       (_updateCloudProviderCredential None (Some Sample.secretGcpAzure) st) !! "a/s1"
     = Some Sample.explicitBinding
  /\ credentialsBindings
       (_updateCloudProviderCredential (Some Sample.explicitBinding)
          (Some Sample.secretGcpAzure) reset) !! "a/s1"
     = Some Sample.explicitBinding.
Proof.
  intros st.
  destruct (C2_refresh_removes_only_own_virtual_bindings st Sample.secretGcpAzure)
    as [Hremoved Hkept].
  destruct (C2_refresh_removes_only_own_virtual_bindings reset Sample.secretGcpAzure)
    as [_ Hcreated].
  split; [|split].
  - apply (Hremoved "a/s1/aws"); vm_compute; reflexivity.
  - apply (Hkept Sample.explicitBinding); vm_compute; reflexivity.
  - apply (Hcreated Sample.explicitBinding); reflexivity.
Defined.

(** What [updateCredential] and [createCredential] make of the store when
    the backend answers. *)
Lemma state_updateCredential (api : Api) (params updated : Credential) (w : World) :
  updateCloudProviderCredential api (secret params) = Resolved {| body := Some updated |} ->
  state (updateCredential api params w).1
  = _updateCloudProviderCredential None (secret updated) (state w).
Proof.
  intros Hanswer. unfold updateCredential. rewrite Hanswer. cbn [body].
  by destruct (displayName (binding params) (secret params)).
Qed.

Lemma state_createCredential (api : Api) (params created : Credential) (w : World) :
  createCloudProviderCredential api
    {| binding := binding params; secret := secret params |}
  = Resolved {| body := Some created |} ->
  state (createCredential api params w).1
  = _updateCloudProviderCredential (binding created) (secret created) (state w).
Proof.
  intros Hanswer. unfold createCredential. rewrite Hanswer. cbn [body].
  by destruct (binding created).
Qed.




(** ** The entry points *)

(** A failure of [fetchCredentials] of any origin leaves an empty store. *)
Lemma fetchCredentials_failure_resets (api : Api) (namespace : string) (w : World)
    (err : JsError) :
  (fetchCredentials api namespace w).2 = Rejected err ->
  state (fetchCredentials api namespace w).1 = reset.
Proof.
  unfold fetchCredentials.
  by destruct (fetchAttempt api namespace w) as [w' [r|e]].
Qed.

(** C1. If the backend call of [fetchCredentials] fails, [fetchCredentials]
    fails with that same error; and whenever [fetchCredentials] fails, be it
    for the backend call or for a response without a body, each of the five
    mappings is empty afterwards. *)
Theorem C1_fetch_failure_resets (api : Api) (namespace : string) (w : World) :
  (forall err,
      getCloudProviderCredentials api namespace = Rejected err ->
      (fetchCredentials api namespace w).2 = Rejected err)
  /\ (forall err,
        (fetchCredentials api namespace w).2 = Rejected err ->
        let st' := state (fetchCredentials api namespace w).1 in
        secretBindings st' = ∅
        /\ secrets st' = ∅
        /\ credentialsBindings st' = ∅
        /\ workloadIdentities st' = ∅
        /\ quotas st' = ∅).
Proof.
  split.
  - intros err Hfail. unfold fetchCredentials, fetchAttempt. by rewrite Hfail.
  - intros err Hfail st'. subst st'.
    by rewrite (fetchCredentials_failure_resets _ _ _ _ Hfail).
Qed.

Lemma C1_fetch_failure_witness :
  let after := fetchCredentials Sample.unreachableApi "a" Sample.populated in
  after.2 = Rejected (BackendError "ECONNREFUSED")
  /\ secretBindings (state after.1) = ∅
  /\ secrets (state after.1) = ∅
  /\ credentialsBindings (state after.1) = ∅
  /\ workloadIdentities (state after.1) = ∅
  /\ quotas (state after.1) = ∅.
Proof.
  intros after.
  destruct (C1_fetch_failure_resets Sample.unreachableApi "a" Sample.populated)
    as [Hraised Hempty].
  split; [exact (Hraised _ eq_refl)|exact (Hempty _ (Hraised _ eq_refl))].
Defined.

(** A response without a body makes the destructuring throw inside the
    [try] block: the store is reset as well. *)
Example fetchCredentials_bodyless :
  fetchCredentials Sample.bodylessApi "a" Sample.populated
  = ({| state := reset; alerts := alerts Sample.populated |}, Rejected TypeError).
Proof. reflexivity. Qed.

(** A delete that succeeds is followed by a full fetch. *)
Example deleteCredential_sample :
  deleteCredential (Sample.servingApi (Sample.payload [] [] [] [] []))
    "a" "CredentialsBinding" "a" "s1" Sample.populated
  = ({| state := reset;
        alerts := ["Cloud Provider credential s1 created";
                   "Cloud Provider credential s1 deleted"] |},
     Resolved tt).
Proof. vm_compute. reflexivity. Qed.

(** C9. If the backend call of [createCredential] or of [updateCredential]
    fails, the call ends with that same error and the store, all five
    mappings and the messages, is what it was before the call. *)
Theorem C9_create_update_failure_keeps_state (api : Api) (params : Credential) (w : World)
    (err : JsError) :
  (createCloudProviderCredential api
     {| binding := binding params; secret := secret params |} = Rejected err ->
   createCredential api params w = (w, Rejected err))
  /\ (updateCloudProviderCredential api (secret params) = Rejected err ->
      updateCredential api params w = (w, Rejected err)).
Proof.
  split; intros Hfail.
  - unfold createCredential. by rewrite Hfail.
  - unfold updateCredential. by rewrite Hfail.
Qed.

Lemma C9_create_update_failure_witness :
  let params := {| binding := Some Sample.explicitBinding;
                   secret := Some Sample.secretGcpAzure |} in
  createCredential Sample.unreachableApi params Sample.populated
  = (Sample.populated, Rejected (BackendError "ECONNREFUSED"))
  /\ updateCredential Sample.unreachableApi params Sample.populated
     = (Sample.populated, Rejected (BackendError "ECONNREFUSED")).
Proof.
  intros params.
  destruct (C9_create_update_failure_keeps_state Sample.unreachableApi params
              Sample.populated (BackendError "ECONNREFUSED")) as [Hcreate Hupdate].
  split; [exact (Hcreate eq_refl)|exact (Hupdate eq_refl)].
Defined.

(** C5. When the fetch delivers the one secret of namespace ["a"], name
    ["s1"], uid ["u1"] and label ["provider.shoot.gardener.cloud/aws"] set to
    ["true"], and no record in any other collection, the list of all
    bindings has one element; it is stored under the key ["a/s1/aws"], its
    kind is ["Secret"], its provider type ["aws"] and its uid ["u1-aws"]. *)
Theorem C5_single_secret_end_to_end (api : Api) (namespace' : string) (w : World)
    (p : Payload.t) (s : Resource) :
  getCloudProviderCredentials api namespace' = Resolved {| body := Some p |} ->
  Payload.secrets p = Some [s] ->
  namespace (metadata s) = "a" ->
  name (metadata s) = "s1" ->
  uid (metadata s) = "u1" ->
  labels (metadata s) = Some [("provider.shoot.gardener.cloud/aws", "true")] ->
  noRecords (Payload.secretBindings p) ->
  noRecords (Payload.credentialsBindings p) ->
  noRecords (Payload.workloadIdentities p) ->
  noRecords (Payload.quotas p) ->
  let after := fetchCredentials api namespace' w in
  after.2 = Resolved tt
  /\ exists v,
      cloudProviderBindingList (state after.1) = [v]
      /\ credentialsBindings (state after.1) !! "a/s1/aws" = Some v
      /\ kind v = Some "Secret"
      /\ type <$> provider v = Some "aws"
      /\ uid (metadata v) = "u1-aws".
Proof.
  intros Hfetch Hsecrets Hns Hname Huid Hlabels Hsb Hcb Hwi Hq after. subst after.
  unfold fetchCredentials, fetchAttempt. rewrite Hfetch. cbn [body fst snd].
  split; [done|].
  destruct p as [sb ss cb wi q]. cbn in Hsecrets, Hsb, Hcb, Hwi, Hq. subst ss.
  destruct s as [k av [ns n u l an] pr sr cr d]. cbn in Hns, Hname, Huid, Hlabels. subst.
  assert (forall c (f : State -> Resource -> State) st, noRecords c -> forEach c f st = st)
    as Hskip.
  { intros [items|] f st; unfold noRecords; cbn; [by intros ->|done]. }
  unfold _setCredentials. cbn [Payload.secretBindings Payload.secrets
    Payload.credentialsBindings Payload.workloadIdentities Payload.quotas withState state].
  rewrite (Hskip sb), (Hskip q), (Hskip wi), (Hskip cb) by done.
  cbn [forEach fold_left].
  match goal with
  | |- context [secretItem reset ?item] =>
      exists (secretVirtualBinding (assignKind "Secret" item) "aws")
  end.
  repeat split; vm_compute; reflexivity.
Qed.

Lemma C5_single_secret_witness :
  let after := fetchCredentials
                 (Sample.servingApi (Sample.payload [] [Sample.secretAws] [] [] []))
                 "a" Sample.populated in
  after.2 = Resolved tt
  /\ exists v,
      cloudProviderBindingList (state after.1) = [v]
      /\ credentialsBindings (state after.1) !! "a/s1/aws" = Some v
      /\ kind v = Some "Secret"
      /\ type <$> provider v = Some "aws"
      /\ uid (metadata v) = "u1-aws".
Proof.
  apply (C5_single_secret_end_to_end
           (Sample.servingApi (Sample.payload [] [Sample.secretAws] [] [] []))
           "a" Sample.populated
           (Sample.payload [] [Sample.secretAws] [] [] []) Sample.secretAws);
    reflexivity.
Defined.

(** ** The callbacks of the full refresh *)

Section Callbacks.

Implicit Types (st : State) (item : Resource) (m : gmap string Resource).

Lemma metadata_tagged (c : Collection) item : metadata (tagged c item) = metadata item.
Proof. by destruct c. Qed.

Lemma assignKind_same (k : string) item : kind item = Some k -> assignKind k item = item.
Proof. destruct item. cbn. by intros ->. Qed.

Lemma mapping_callback (c : Collection) st item :
  mapping c (callback c st item)
  = <[metadataKey (metadata item) := tagged c item]> (mapping c st).
Proof. destruct c; cbn; apply set_metadataKey. Qed.

Lemma setVirtualBindings_idempotent literal key item m :
  setVirtualBindings literal key item (setVirtualBindings literal key item m)
  = setVirtualBindings literal key item m.
Proof.
  apply map_eq. intros k.
  destruct (lookup_setVirtualBindings literal key item
              (setVirtualBindings literal key item m) k)
    as [(t & Ht & -> & Hk)|(Hne & Hk)]; rewrite Hk; [|done].
  symmetry. by apply lookup_setVirtualBindings_tag.
Qed.

Lemma set_set_eq m (k : string) (v v' : Resource) : set (set m k v') k v = set m k v.
Proof. unfold set. destruct (unsafeKey k); [done|]. apply insert_insert_eq. Qed.

Lemma callback_idempotent (c : Collection) st item :
  callback c (callback c st item) item = callback c st item.
Proof.
  destruct c; apply State_eq; cbn;
    rewrite ?set_set_eq, ?setVirtualBindings_idempotent; done.
Qed.

End Callbacks.

(** C7, as the store has it. The callback of a collection stores the
    record in the mapping of the collection under its key, and with it the
    kind it has just assigned: an item of the secret bindings, secrets,
    credentials bindings or workload identities gets the kind of its
    collection whatever kind it came with (so the record is stored as it came
    exactly when it came with that kind), and a quota is stored as it came,
    tagged or not. Running a callback twice on the same item is the same as
    running it once, and of two items with the same key the mapping keeps the
    later one, under that one key. *)
Theorem C7_upsert_assigns_collection_kind (c : Collection) (st : State) (a b : Resource) :
  mapping c (callback c st a) !! metadataKey (metadata a) = Some (tagged c a)
  /\ kind (tagged c a) = (if kindTag c is Some k then Some k else kind a)
  /\ (tagged c a = a <-> c = OfQuotas \/ kind a = kindTag c)
  /\ callback c (callback c st a) a = callback c st a
  /\ (metadataKey (metadata a) = metadataKey (metadata b) ->
      mapping c (callback c (callback c st a) b)
      = <[metadataKey (metadata b) := tagged c b]> (mapping c st)).
Proof.
  split; [by rewrite mapping_callback, lookup_insert_eq|].
  split; [by destruct c|].
  split.
  { split.
    - intros Hsame. destruct c; [right|right|right|right|by left];
        apply (f_equal kind) in Hsame; by rewrite <- Hsame.
    - intros [->|Hkind]; [done|].
      destruct c; cbn in *; try apply assignKind_same; done. }
  split; [apply callback_idempotent|].
  intros Hkey. rewrite !mapping_callback, Hkey. apply insert_insert_eq.
Qed.

Lemma C7_upsert_witness :
  tagged OfSecrets Sample.secretAwsGcp = Sample.secretAwsGcp
  /\ mapping OfSecrets
       (callback OfSecrets (callback OfSecrets reset Sample.secretAwsGcp)
          Sample.secretGcpAzure)
     = <["a/s1" := tagged OfSecrets Sample.secretGcpAzure]> (mapping OfSecrets reset).
Proof.
  destruct (C7_upsert_assigns_collection_kind OfSecrets reset
              Sample.secretAwsGcp Sample.secretGcpAzure)
    as (_ & _ & Hsame & _ & Hlast).
  split; [apply Hsame; by right|exact (Hlast eq_refl)].
Defined.

(** C7 fails as stated: a record that comes in the credentials-bindings
    collection with the kind ["SecretBinding"] is stored with the kind
    ["CredentialsBinding"], and a quota that comes without a kind is stored
    without one. *)
Lemma C7_kind_overwritten_counterexample :
  kind Sample.mislabelled = Some "SecretBinding"
  /\ kind <$> credentialsBindings
               (_setCredentials (Sample.payload [] [] [Sample.mislabelled] [] []) reset)
             !! "a/b1"
     = Some (Some "CredentialsBinding")
  /\ kind Sample.quotaNoKind = None
  /\ kind <$> quotas (_setCredentials (Sample.payload [] [] [] [] [Sample.quotaNoKind]) reset)
             !! "a/q1"
     = Some None.
Proof. vm_compute. repeat split; reflexivity. Qed.

(** ** The full refresh against its specification *)

Section Refinement.

Implicit Types (st : State) (item owner : Resource) (m : gmap string Resource).

Lemma forEach_default {A S : Type} (c : option (list A)) (f : S -> A -> S) (s : S) :
  forEach c f s = fold_left f (default [] c) s.
Proof. by destruct c. Qed.

Lemma fold_left_const {A B : Type} (l : list A) (b : B) :
  fold_left (fun b' _ => b') l b = b.
Proof. by induction l. Qed.

Lemma fold_left_pointwise {A B : Type} (f g : B -> A -> B) (l : list A) (b : B) :
  (forall b' a, f b' a = g b' a) -> fold_left f l b = fold_left g l b.
Proof. intros H. revert b. induction l as [|a l IH]; intros b; cbn; [done|]. by rewrite H, IH. Qed.

(** A field of the store after a loop, from what one round does to it. *)
Lemma proj_fold {A B : Type} (proj : State -> B) (f : State -> A -> State)
    (g : B -> A -> B) :
  (forall st a, proj (f st a) = g (proj st) a) ->
  forall l st, proj (fold_left f l st) = fold_left g l (proj st).
Proof.
  intros H l. induction l as [|a l IH]; intros st; cbn; [done|]. by rewrite IH, H.
Qed.

Lemma fold_left_preserves {A B : Type} (P : B -> Prop) (g : B -> A -> B) (l : list A) (b : B) :
  (forall b' a, a ∈ l -> P b' -> P (g b' a)) -> P b -> P (fold_left g l b).
Proof.
  revert b. induction l as [|a l IH]; intros b Hg Hb; cbn; [done|].
  apply IH.
  - intros b' a' Ha'. apply Hg. by right.
  - apply Hg; [by left|done].
Qed.

Lemma map_Forall_setVirtualBindings (P : string -> Resource -> Prop) literal key item m :
  map_Forall P m ->
  (forall t, P (key +:+ "/" +:+ t) (literal item t)) ->
  map_Forall P (setVirtualBindings literal key item m).
Proof.
  intros Hm Hlit k v Hk.
  destruct (lookup_setVirtualBindings literal key item m k)
    as [(t & _ & -> & Ht)|(_ & Hother)].
  - rewrite Ht in Hk. injection Hk as <-. apply Hlit.
  - rewrite Hother in Hk. by apply Hm.
Qed.

Lemma setVirtualBindings_insert literal key item m (k : string) (v : Resource) :
  (forall t, k <> key +:+ "/" +:+ t) ->
  setVirtualBindings literal key item (<[k := v]> m)
  = <[k := v]> (setVirtualBindings literal key item m).
Proof.
  intros Hk. unfold setVirtualBindings.
  generalize (providerTypesFromLabels (labels (metadata item))) as ts.
  intros ts. revert m. induction ts as [|t ts IH]; intros m; cbn [fold_left]; [done|].
  rewrite !set_slash, <- IH. f_equal. apply insert_insert_ne. by apply not_eq_sym.
Qed.

(** With plain names, an explicit key is no virtual key, and a virtual key
    lies under the key of its owner only. *)
Lemma explicit_key_not_virtual (explicit owner : Resource) (t : string) :
  plainName explicit -> plainName owner ->
  metadataKey (metadata explicit) <> metadataKey (metadata owner) +:+ "/" +:+ t.
Proof.
  intros [He1 He2] [Ho1 _]. unfold metadataKey, namespaceNameKey.
  rewrite append_assoc. intros H.
  apply slash_split in H as [_ H]; [|done|done].
  assert (Js.hasSlash (name (metadata explicit)) = true) as Hs.
  { rewrite H. change ("/" +:+ name (metadata owner) +:+ "/" +:+ t)
      with (String "/" (name (metadata owner) +:+ "/" +:+ t)).
    rewrite append_cons. apply hasSlash_append. }
  congruence.
Qed.

Lemma virtual_key_under (owner owner' : Resource) (t : string) :
  plainName owner -> plainName owner' ->
  String.eqb (metadataKey (metadata owner) +:+ "/" +:+ t) (metadataKey (metadata owner'))
  || Js.startsWith (metadataKey (metadata owner) +:+ "/" +:+ t)
       (metadataKey (metadata owner') +:+ "/") = true ->
  metadataKey (metadata owner) = metadataKey (metadata owner').
Proof.
  intros Ho Ho' H. apply orb_true_iff in H as [H|H].
  - apply String.eqb_eq in H. symmetry in H.
    by apply explicit_key_not_virtual in H.
  - apply startsWith_inv in H as [r H].
    destruct Ho as [Hns Hn], Ho' as [Hns' Hn'].
    unfold metadataKey, namespaceNameKey in *. rewrite !append_assoc in H.
    apply slash_split in H as [Ens H]; [|done|done].
    apply slash_split in H as [En _]; [|done|done].
    by rewrite Ens, En.
Qed.

(** Among owners with plain names and distinct keys, the removal step of
    [synthesize] finds nothing to remove, as long as the mapping it starts
    from holds no entry of the owners' kind under any of their keys. *)
Lemma fold_refreshVirtual (literal : Resource -> string -> Resource) (k : string)
    (owners : list Resource) m :
  (forall owner t, kind (literal owner t) = Some k) ->
  Forall plainName owners ->
  NoDup ((fun item => metadataKey (metadata item)) <$> owners) ->
  (forall key v owner,
      m !! key = Some v -> kind v = Some k -> owner ∈ owners ->
      String.eqb key (metadataKey (metadata owner))
      || Js.startsWith key (metadataKey (metadata owner) +:+ "/") = false) ->
  fold_left (refreshVirtual literal k) owners m = fold_left (writeVirtual literal k) owners m.
Proof.
  intros Hkind. revert m.
  induction owners as [|owner owners IH]; intros m Hplain Hnodup Hm; [done|].
  apply Forall_cons in Hplain as [Hplain Hplains].
  apply NoDup_cons in Hnodup as [Hfresh Hnodup].
  cbn [fold_left].
  assert (refreshVirtual literal k m owner = writeVirtual literal k m owner) as ->.
  { unfold refreshVirtual, writeVirtual. f_equal. apply map_filter_id.
    intros key v Hkey. cbn [fst snd]. unfold ownedBy.
    destruct (decide (kind v = Some k)) as [Hv|Hv].
    - rewrite (Hm key v owner Hkey Hv) by left. done.
    - rewrite (bool_decide_eq_false_2 _ Hv). apply andb_false_r. }
  apply IH; [done|done|].
  intros key v owner' Hkey Hv Howner'.
  destruct (lookup_setVirtualBindings literal (metadataKey (metadata owner))
              (assignKind k owner) m key) as [(t & _ & -> & _)|(_ & Hother)].
  - destruct (_ || _) eqn:E; [|done]. exfalso. apply Hfresh.
    apply (virtual_key_under owner owner' t) in E; [|done|].
    + rewrite E. apply list_elem_of_fmap. by exists owner'.
    + by apply (proj1 (Forall_forall _ _) Hplains).
  - unfold writeVirtual in Hkey. rewrite Hother in Hkey.
    apply (Hm key v owner'); [done|done|by right].
Qed.

(** With plain names, the explicit bindings can be written before or after
    the virtual bindings of a list of owners. *)
Lemma writeVirtual_writeExplicit literal (k : string) m (explicit owner : Resource) :
  plainName explicit -> plainName owner ->
  writeVirtual literal k (writeExplicit m explicit) owner
  = writeExplicit (writeVirtual literal k m owner) explicit.
Proof.
  intros He Ho. unfold writeVirtual, writeExplicit.
  apply setVirtualBindings_insert. intros t. by apply explicit_key_not_virtual.
Qed.

Lemma fold_writeVirtual_writeExplicit literal (k : string) (owners : list Resource) m
    (explicit : Resource) :
  plainName explicit -> Forall plainName owners ->
  fold_left (writeVirtual literal k) owners (writeExplicit m explicit)
  = writeExplicit (fold_left (writeVirtual literal k) owners m) explicit.
Proof.
  intros He. revert m. induction owners as [|owner owners IH]; intros m Ho; [done|].
  apply Forall_cons in Ho as [Ho Hos]. cbn [fold_left].
  rewrite writeVirtual_writeExplicit by done. by apply IH.
Qed.

Lemma fold_writeVirtual_fold_writeExplicit literal (k : string)
    (owners explicits : list Resource) m :
  Forall plainName explicits -> Forall plainName owners ->
  fold_left (writeVirtual literal k) owners (fold_left writeExplicit explicits m)
  = fold_left writeExplicit explicits (fold_left (writeVirtual literal k) owners m).
Proof.
  intros He Ho. revert m. induction explicits as [|e explicits IH]; intros m; [done|].
  apply Forall_cons in He as [He Hes]. cbn [fold_left].
  rewrite IH by done. by rewrite fold_writeVirtual_writeExplicit.
Qed.

Ltac skip_loop :=
  match goal with
  | |- context [?proj (fold_left ?f ?l ?st)] =>
      rewrite (proj_fold proj f (fun m _ => m) (fun _ _ => eq_refl) l st), fold_left_const
  end.

Ltac enter_loop g :=
  match goal with
  | |- context [?proj (fold_left ?f ?l ?st)] =>
      rewrite (proj_fold proj f g (fun _ _ => eq_refl) l st)
  end.

Lemma credentialsBindings_setCredentials (p : Payload.t) st :
  credentialsBindings (_setCredentials p st)
  = fold_left (writeVirtual workloadIdentityVirtualBinding "WorkloadIdentity")
      (default [] (Payload.workloadIdentities p))
      (fold_left writeExplicit (default [] (Payload.credentialsBindings p))
         (fold_left (writeVirtual secretVirtualBinding "Secret")
            (default [] (Payload.secrets p)) ∅)).
Proof.
  unfold _setCredentials. rewrite !forEach_default.
  skip_loop.
  enter_loop (writeVirtual workloadIdentityVirtualBinding "WorkloadIdentity").
  enter_loop (fun m item =>
                set m (metadataKey (metadata item)) (assignKind "CredentialsBinding" item)).
  enter_loop (writeVirtual secretVirtualBinding "Secret").
  skip_loop. cbn [reset credentialsBindings].
  by rewrite (fold_left_pointwise
                (fun m item =>
                   set m (metadataKey (metadata item)) (assignKind "CredentialsBinding" item))
                writeExplicit) by (intros; apply set_metadataKey).
Qed.

Lemma credentialsBindings_replaceAll (p : Payload.t) st :
  credentialsBindings (replaceAll p st)
  = fold_left (refreshVirtual workloadIdentityVirtualBinding "WorkloadIdentity")
      (default [] (Payload.workloadIdentities p))
      (fold_left (refreshVirtual secretVirtualBinding "Secret")
         (default [] (Payload.secrets p))
         (fold_left writeExplicit (default [] (Payload.credentialsBindings p)) ∅)).
Proof.
  unfold replaceAll, synthesizeAll, upsertAll.
  enter_loop (fun m item =>
                fold_left
                  (fun m' tag =>
                     <[metadataKey (metadata item) +:+ "/" +:+ tag
                       := workloadIdentityVirtualBinding
                            (assignKind "WorkloadIdentity" item) tag]> m')
                  (providerTypesFromLabels (labels (metadata item)))
                  (filter (fun entry =>
                             ownedBy (metadataKey (metadata item)) (Some "WorkloadIdentity")
                               entry.1 entry.2 = false) m)).
  enter_loop (fun m item =>
                fold_left
                  (fun m' tag =>
                     <[metadataKey (metadata item) +:+ "/" +:+ tag
                       := secretVirtualBinding (assignKind "Secret" item) tag]> m')
                  (providerTypesFromLabels (labels (metadata item)))
                  (filter (fun entry =>
                             ownedBy (metadataKey (metadata item)) (Some "Secret")
                               entry.1 entry.2 = false) m)).
  do 2 skip_loop.
  enter_loop writeExplicit.
  do 2 skip_loop. cbn [reset credentialsBindings].
  assert (forall literal k m item,
             fold_left
               (fun m' tag =>
                  <[metadataKey (metadata item) +:+ "/" +:+ tag
                    := literal (assignKind k item) tag]> m')
               (providerTypesFromLabels (labels (metadata item)))
               (filter (fun entry =>
                          ownedBy (metadataKey (metadata item)) (Some k)
                            entry.1 entry.2 = false) m)
             = refreshVirtual literal k m item) as Hround.
  { intros literal k m item. unfold refreshVirtual, setVirtualBindings.
    apply fold_left_pointwise. intros m' tag. symmetry. apply set_slash. }
  rewrite (fold_left_pointwise _
             (refreshVirtual workloadIdentityVirtualBinding "WorkloadIdentity"))
    by (intros; apply Hround).
  f_equal. apply fold_left_pointwise. intros. apply Hround.
Qed.

Lemma kinds_fold_writeExplicit (explicits : list Resource) :
  map_Forall (fun _ v => kind v = Some "CredentialsBinding")
    (fold_left writeExplicit explicits ∅).
Proof.
  apply (fold_left_preserves
           (map_Forall (fun (_ : string) v => kind v = Some "CredentialsBinding"))).
  - intros m item _ Hm. by apply map_Forall_insert_2.
  - apply map_Forall_empty.
Qed.

Lemma kinds_fold_writeVirtual_secret (owners : list Resource) m :
  map_Forall (fun _ v => kind v <> Some "WorkloadIdentity") m ->
  map_Forall (fun _ v => kind v <> Some "WorkloadIdentity")
    (fold_left (writeVirtual secretVirtualBinding "Secret") owners m).
Proof.
  apply (fold_left_preserves
           (map_Forall (fun (_ : string) v => kind v <> Some "WorkloadIdentity"))).
  intros m' item _ Hm'. by apply map_Forall_setVirtualBindings.
Qed.

Lemma credentialsBindings_refinement (p : Payload.t) st :
  listed (Payload.secrets p) ->
  Forall plainName (default [] (Payload.credentialsBindings p)) ->
  listed (Payload.workloadIdentities p) ->
  credentialsBindings (_setCredentials p st) = credentialsBindings (replaceAll p st).
Proof.
  intros [Hs Hsk] He [Hw Hwk].
  rewrite credentialsBindings_setCredentials, credentialsBindings_replaceAll.
  rewrite (fold_refreshVirtual secretVirtualBinding "Secret"); [|done|done|done|].
  - rewrite (fold_refreshVirtual workloadIdentityVirtualBinding "WorkloadIdentity");
      [|done|done|done|].
    + by rewrite (fold_writeVirtual_fold_writeExplicit secretVirtualBinding "Secret").
    + intros key v owner Hkey Hkind _. exfalso.
      assert (map_Forall (fun (_ : string) v' => kind v' <> Some "WorkloadIdentity")
                (fold_left (writeVirtual secretVirtualBinding "Secret")
                   (default [] (Payload.secrets p))
                   (fold_left writeExplicit
                      (default [] (Payload.credentialsBindings p)) ∅))) as Hkinds.
      { apply kinds_fold_writeVirtual_secret.
        eapply map_Forall_impl; [apply kinds_fold_writeExplicit|].
        cbn. by intros _ v' ->. }
      by apply (Hkinds key v Hkey).
  - intros key v owner Hkey Hkind _. exfalso.
    apply kinds_fold_writeExplicit in Hkey. cbn in Hkey. congruence.
Qed.

Lemma plain_fields_refinement (p : Payload.t) st :
  secretBindings (_setCredentials p st) = secretBindings (replaceAll p st)
  /\ secrets (_setCredentials p st) = secrets (replaceAll p st)
  /\ workloadIdentities (_setCredentials p st) = workloadIdentities (replaceAll p st)
  /\ quotas (_setCredentials p st) = quotas (replaceAll p st).
Proof.
  unfold _setCredentials, replaceAll, synthesizeAll, upsertAll.
  rewrite !forEach_default.
  repeat split; repeat skip_loop.
  - enter_loop (fun m item =>
                  set m (metadataKey (metadata item)) (assignKind "SecretBinding" item)).
    enter_loop (fun m item =>
                  <[metadataKey (metadata item) := assignKind "SecretBinding" item]> m).
    apply fold_left_pointwise. intros. apply set_metadataKey.
  - enter_loop (fun m item =>
                  set m (metadataKey (metadata item)) (assignKind "Secret" item)).
    enter_loop (fun m item =>
                  <[metadataKey (metadata item) := assignKind "Secret" item]> m).
    repeat skip_loop. apply fold_left_pointwise. intros. apply set_metadataKey.
  - enter_loop (fun m item =>
                  set m (metadataKey (metadata item)) (assignKind "WorkloadIdentity" item)).
    enter_loop (fun m item =>
                  <[metadataKey (metadata item) := assignKind "WorkloadIdentity" item]> m).
    repeat skip_loop. apply fold_left_pointwise. intros. apply set_metadataKey.
  - enter_loop (fun m (item : Resource) => set m (metadataKey (metadata item)) item).
    enter_loop (fun m (item : Resource) => <[metadataKey (metadata item) := item]> m).
    repeat skip_loop. apply fold_left_pointwise. intros. apply set_metadataKey.
Qed.

Lemma setCredentials_forgets (p : Payload.t) st st' :
  _setCredentials p st' = _setCredentials p st.
Proof. reflexivity. Qed.

Lemma setCredentials_supplied (p : Payload.t) st :
  _setCredentials (supplied p) st = _setCredentials p st.
Proof. unfold _setCredentials. by rewrite !forEach_default. Qed.

End Refinement.

(** C6, as it holds. [_setCredentials] starts from the empty store whatever
    the store held, and reads a missing collection as an empty one. It
    writes the virtual bindings of a secret or workload identity in the round
    that stores the owner, before the explicit bindings are stored, and
    removes nothing. When the fetched secrets and workload identities have
    names and namespaces without ["/"] and no two of a collection share a
    key, and the fetched explicit bindings have names and namespaces without
    ["/"], the result is the store that reset, upsert of every element and
    then synthesis for every secret and workload identity give. *)
Theorem C6_setCredentials_refines_replaceAll (p : Payload.t) (st : State) :
  (listed (Payload.secrets p) ->
   Forall plainName (default [] (Payload.credentialsBindings p)) ->
   listed (Payload.workloadIdentities p) ->
   _setCredentials p st = replaceAll p st)
  /\ (forall st', _setCredentials p st' = _setCredentials p st)
  /\ _setCredentials (supplied p) st = _setCredentials p st.
Proof.
  split; [|split; [intros st'; apply setCredentials_forgets|apply setCredentials_supplied]].
  intros Hs He Hw.
  destruct (plain_fields_refinement p st) as (Hsb & Hss & Hwi & Hq).
  apply State_eq; [done|done| |done|done].
  by apply credentialsBindings_refinement.
Qed.

Lemma C6_refinement_witness :
  let p := Sample.payload [Sample.mislabelled] [Sample.secretAwsGcp] [Sample.explicitBinding]
             [Sample.identityAwsGcp] [Sample.quotaNoKind] in
  _setCredentials p Sample.populated.(state) = replaceAll p Sample.populated.(state).
Proof.
  intros p.
  apply (proj1 (C6_setCredentials_refines_replaceAll p Sample.populated.(state))).
  - split; [by repeat constructor|apply NoDup_singleton].
  - by repeat constructor.
  - split; [by repeat constructor|apply NoDup_singleton].
Defined.

(** C6 fails as stated, in two ways. When the fetched secrets hold two
    records of the same namespace and name, [_setCredentials] keeps the
    virtual bindings of both, and synthesis after the upserts would keep
    those of the later one only. When an explicit binding is named like a
    virtual key, [_setCredentials] ends with the explicit binding under that
    key, and synthesis after the upserts would end with the virtual one. *)
Lemma C6_refinement_counterexample :
  let twice := Sample.payload [] [Sample.secretAwsOnly; Sample.secretGcpOnly] [] [] [] in
  let slash := Sample.payload [] [Sample.secretAwsOnly] [Sample.explicitSlash] [] [] in
  (credentialsBindings (_setCredentials twice reset) !! "a/s1/aws"
   = Some (secretVirtualBinding Sample.secretAwsOnly "aws")
   /\ credentialsBindings (replaceAll twice reset) !! "a/s1/aws" = None
   /\ _setCredentials twice reset <> replaceAll twice reset)
  /\ (credentialsBindings (_setCredentials slash reset) !! "a/s1/aws"
      = Some Sample.explicitSlash
      /\ credentialsBindings (replaceAll slash reset) !! "a/s1/aws"
         = Some (secretVirtualBinding Sample.secretAwsOnly "aws")
      /\ _setCredentials slash reset <> replaceAll slash reset).
Proof.
  intros twice slash. split; (split; [by vm_compute|split; [by vm_compute|]]).
  - intros H.
    apply (f_equal (fun st => credentialsBindings st !! "a/s1/aws")) in H.
    vm_compute in H. discriminate.
  - intros H.
    apply (f_equal (fun st => credentialsBindings st !! "a/s1/aws")) in H.
    vm_compute in H. discriminate.
Qed.

(** ** The keys of the credentials-bindings mapping *)

Section Keys.

Implicit Types (st : State) (m : gmap string Resource).

Lemma wellKeyed_empty : wellKeyed ∅.
Proof. intros k v H. by rewrite lookup_empty in H. Qed.

Lemma wellKeyed_set_explicit m (v : Resource) :
  wellKeyed m -> kind v = Some "CredentialsBinding" ->
  wellKeyed (set m (metadataKey (metadata v)) v).
Proof.
  intros Hm Hv k v' Hk. rewrite set_metadataKey in Hk.
  destruct (decide (metadataKey (metadata v) = k)) as [<-|Hne].
  - rewrite lookup_insert_eq in Hk. injection Hk as <-. by left.
  - rewrite lookup_insert_ne in Hk by done. by apply Hm.
Qed.

Lemma wellKeyed_writeVirtual m (item : Resource) (k : string) literal :
  literal = secretVirtualBinding \/ literal = workloadIdentityVirtualBinding ->
  wellKeyed m -> wellKeyed (writeVirtual literal k m item).
Proof.
  intros Hliteral Hm. unfold writeVirtual.
  apply (map_Forall_setVirtualBindings (fun k' v => explicitEntry k' v \/ virtualEntry k' v));
    [exact Hm|].
  intros t. right. exists (assignKind k item), t. split; [done|].
  destruct Hliteral as [->| ->]; [by left|by right].
Qed.

Lemma wellKeyed_purgeVirtualBindings m (key : string) :
  wellKeyed m -> wellKeyed (purgeVirtualBindings key m).
Proof.
  intros Hm k v Hk. rewrite lookup_purgeVirtualBindings in Hk.
  destruct (m !! k) as [v'|] eqn:E; [|done].
  destruct (ownedBy key (Some "Secret") k v'); [done|].
  injection Hk as <-. by apply Hm.
Qed.

Lemma wellKeyed_setCredentials (p : Payload.t) st :
  wellKeyed (credentialsBindings (_setCredentials p st)).
Proof.
  rewrite credentialsBindings_setCredentials.
  apply (fold_left_preserves wellKeyed).
  { intros m item _ Hm. apply wellKeyed_writeVirtual; [by right|done]. }
  apply (fold_left_preserves wellKeyed).
  { intros m item _ Hm. unfold writeExplicit.
    rewrite <- (set_metadataKey m (metadata (assignKind "CredentialsBinding" item))).
    by apply wellKeyed_set_explicit. }
  apply (fold_left_preserves wellKeyed); [|apply wellKeyed_empty].
  intros m item _ Hm. apply wellKeyed_writeVirtual; [by left|done].
Qed.

Lemma wellKeyed_updateBinding (binding : Resource) st :
  wellKeyed (credentialsBindings st) ->
  wellKeyed (credentialsBindings (updateBinding binding st)).
Proof.
  intros Hst. unfold updateBinding.
  destruct (kindIs binding "SecretBinding"); [done|].
  destruct (kindIs binding "CredentialsBinding") eqn:E; [|done].
  apply bool_decide_eq_true_1 in E. by apply wellKeyed_set_explicit.
Qed.

Lemma wellKeyed_updateSecret (secret : Resource) st :
  wellKeyed (credentialsBindings st) ->
  wellKeyed (credentialsBindings (updateSecret secret st)).
Proof.
  intros Hst. cbn [updateSecret credentialsBindings].
  apply (map_Forall_setVirtualBindings (fun k v => explicitEntry k v \/ virtualEntry k v)).
  - by apply wellKeyed_purgeVirtualBindings.
  - intros t. right. exists secret, t. split; [done|by left].
Qed.

Lemma wellKeyed_update (binding secret : option Resource) st :
  wellKeyed (credentialsBindings st) ->
  wellKeyed (credentialsBindings (_updateCloudProviderCredential binding secret st)).
Proof.
  intros Hst. unfold _updateCloudProviderCredential, whenDefined.
  destruct secret as [s|], binding as [b|];
    auto using wellKeyed_updateSecret, wellKeyed_updateBinding.
Qed.

Lemma wellKeyed_fetchCredentials (api : Api) (namespace : string) (w : World) :
  wellKeyed (credentialsBindings (state (fetchCredentials api namespace w).1)).
Proof.
  unfold fetchCredentials, fetchAttempt.
  destruct (getCloudProviderCredentials api namespace) as [[[payload|]]|err]; cbn;
    auto using wellKeyed_empty, wellKeyed_setCredentials.
Qed.

(** In every store a session can be in, each entry of the credentials-bindings
    mapping is an explicit binding under its own key or a virtual binding
    under the key of its owner and a tag. *)
Lemma reachable_wellKeyed (w : World) :
  reachable w -> wellKeyed (credentialsBindings (state w)).
Proof.
  induction 1 as [|api ns w _ IH|api params w _ IH|api params w _ IH|api ns k n n' w _ IH].
  - apply wellKeyed_empty.
  - apply wellKeyed_fetchCredentials.
  - unfold createCredential.
    destruct (createCloudProviderCredential api _) as [[[created|]]|err]; cbn; [|done|done].
    destruct (binding created); cbn; by apply wellKeyed_update.
  - unfold updateCredential.
    destruct (updateCloudProviderCredential api _) as [[[updated|]]|err]; cbn; [|done|done].
    destruct (displayName _ _); cbn; by apply wellKeyed_update.
  - unfold deleteCredential.
    destruct (deleteCloudProviderCredential api k n n') as [[]|err]; cbn; [|done].
    pose proof (wellKeyed_fetchCredentials api ns w) as Hfetch.
    by destruct (fetchCredentials api ns w) as [w' [[]|err]].
Qed.

End Keys.

(** C10. In every store a session can be in, an entry of the
    credentials-bindings mapping that is not an explicit binding is the
    virtual binding of an owner and a tag, stored under the owner's key,
    ["/"] and the tag. Its metadata is the owner's but for the uid, which is
    the owner's uid, ["-"] and the tag; so the key index of the stored
    binding is the key of the owner, and not the key the binding is stored
    under. *)
Theorem C10_virtual_binding_keeps_owner_metadata (w : World) (k : string) (v : Resource) :
  reachable w ->
  credentialsBindings (state w) !! k = Some v ->
  kind v <> Some "CredentialsBinding" ->
  exists owner tag,
    k = metadataKey (metadata owner) +:+ "/" +:+ tag
    /\ (v = secretVirtualBinding owner tag \/ v = workloadIdentityVirtualBinding owner tag)
    /\ namespace (metadata v) = namespace (metadata owner)
    /\ name (metadata v) = name (metadata owner)
    /\ labels (metadata v) = labels (metadata owner)
    /\ annotations (metadata v) = annotations (metadata owner)
    /\ uid (metadata v) = uid (metadata owner) +:+ "-" +:+ tag
    /\ metadataKey (metadata v) = metadataKey (metadata owner)
    /\ metadataKey (metadata v) <> k.
Proof.
  intros Hw Hk Hkind.
  destruct (reachable_wellKeyed w Hw k v Hk) as [[Hexplicit _]|(owner & tag & -> & Hv)];
    [done|].
  exists owner, tag. split; [done|]. split; [done|].
  assert (metadata v
          = spreadWithUid (metadata owner) (uid (metadata owner) +:+ "-" +:+ tag)) as ->.
  { by destruct Hv as [->| ->]. }
  repeat split. apply virtualKey_ne.
Qed.

Lemma C10_virtual_binding_witness :
  exists owner tag,
    "a/s1/aws" = metadataKey (metadata owner) +:+ "/" +:+ tag
    /\ uid (metadata (secretVirtualBinding (assignKind "Secret" Sample.secretAws) "aws"))
       = uid (metadata owner) +:+ "-" +:+ tag
    /\ metadataKey (metadata (secretVirtualBinding (assignKind "Secret" Sample.secretAws) "aws"))
       = metadataKey (metadata owner)
    /\ metadataKey (metadata (secretVirtualBinding (assignKind "Secret" Sample.secretAws) "aws"))
       <> "a/s1/aws".
Proof.
  destruct (C10_virtual_binding_keeps_owner_metadata
              (fetchCredentials
                 (Sample.servingApi (Sample.payload [] [Sample.secretAws] [] [] []))
                 "a" Sample.initial).1
              "a/s1/aws"
              (secretVirtualBinding (assignKind "Secret" Sample.secretAws) "aws"))
    as (owner & tag & Hk & _ & _ & _ & _ & _ & Huid & Hkey & Hne).
  - apply reach_fetch, reach_initial.
  - vm_compute. reflexivity.
  - vm_compute. discriminate.
  - by exists owner, tag.
Defined.

(** * Further properties of the store *)

(** ** Keys *)

(** X1. Two resources whose namespaces have no ["/"] get the same key from
    [namespaceNameKey] only if they have the same namespace and the same
    name. (With a ["/"] in a namespace the key can be shared: ["a/b"] with
    ["c"] and ["a"] with ["b/c"].) *)
Theorem X1_namespaceNameKey_injective (ns n ns' n' : string) :
  Js.hasSlash ns = false ->
  Js.hasSlash ns' = false ->
  namespaceNameKey ns n = namespaceNameKey ns' n' ->
  ns = ns' /\ n = n'.
Proof. intros Hns Hns'. unfold namespaceNameKey. by apply slash_split. Qed.

Lemma X1_namespaceNameKey_witness :
  "garden-dev" = "garden-dev" /\ "my/secret" = "my/secret".
Proof.
  exact (X1_namespaceNameKey_injective "garden-dev" "my/secret" "garden-dev" "my/secret"
           eq_refl eq_refl eq_refl).
Defined.

Example namespaceNameKey_shared :
  namespaceNameKey "a/b" "c" = namespaceNameKey "a" "b/c".
Proof. reflexivity. Qed.

Lemma virtual_key_owner_inj (owner owner' : Resource) (t t' : string) :
  plainName owner -> plainName owner' ->
  metadataKey (metadata owner) +:+ "/" +:+ t
  = metadataKey (metadata owner') +:+ "/" +:+ t' ->
  metadataKey (metadata owner) = metadataKey (metadata owner') /\ t = t'.
Proof.
  intros [Hns Hn] [Hns' Hn'].
  unfold metadataKey, namespaceNameKey. rewrite !append_assoc. intros H.
  apply slash_split in H as [-> H]; [|done|done].
  apply slash_split in H as [-> ->]; done.
Qed.

(** X2. For records whose namespaces and names have no ["/"], the key under
    which a virtual binding is written (owner key, ["/"], tag) is never the
    key of a record itself, and it tells the owner key and the tag: two
    virtual keys are equal only for the same owner key and the same tag. *)
Theorem X2_virtual_keys_separate (explicit owner owner' : Resource) (t t' : string) :
  plainName explicit -> plainName owner -> plainName owner' ->
  metadataKey (metadata explicit) <> metadataKey (metadata owner) +:+ "/" +:+ t
  /\ (metadataKey (metadata owner) +:+ "/" +:+ t
      = metadataKey (metadata owner') +:+ "/" +:+ t' ->
      metadataKey (metadata owner) = metadataKey (metadata owner') /\ t = t').
Proof.
  intros He Ho Ho'. split; [by apply explicit_key_not_virtual|].
  by apply virtual_key_owner_inj.
Qed.

Lemma X2_virtual_keys_witness :
  metadataKey (metadata Sample.explicitBinding)
  <> metadataKey (metadata Sample.secretAwsGcp) +:+ "/" +:+ "aws"
  /\ (metadataKey (metadata Sample.secretAwsGcp) +:+ "/" +:+ "aws"
      = metadataKey (metadata Sample.secretGcpAzure) +:+ "/" +:+ "aws" ->
      metadataKey (metadata Sample.secretAwsGcp) = metadataKey (metadata Sample.secretGcpAzure)
      /\ "aws" = "aws").
Proof.
  apply (X2_virtual_keys_separate Sample.explicitBinding Sample.secretAwsGcp
           Sample.secretGcpAzure "aws" "aws"); by split.
Defined.

(** X3. A label object has every key once, so the capability extractor
    returns every tag once. *)
Theorem X3_providerTypes_NoDup (labels : Js.jsobj string) :
  NoDup labels.*1 -> NoDup (providerTypesFromLabels (Some labels)).
Proof.
  rewrite providerTypes_insertion_order. unfold capabilityTags.
  induction labels as [|[k v] labels IH]; [constructor|].
  intros Hnodup. apply NoDup_cons in Hnodup as [Hk Hnodup].
  change (omap capabilityTag ((k, v) :: labels))
    with (match capabilityTag (k, v) with
          | Some tag => tag :: omap capabilityTag labels
          | None => omap capabilityTag labels
          end).
  destruct (capabilityTag (k, v)) as [tag|] eqn:Etag; [|by apply IH].
  apply NoDup_cons. split; [|by apply IH].
  intros Hin. apply list_elem_of_omap in Hin as ([k' v'] & Hin & Etag').
  apply Hk. apply list_elem_of_fmap. exists (k', v'). split; [|done].
  unfold capabilityTag in Etag, Etag'. cbn [fst snd] in *.
  destruct (String.eqb v "true"); [|done]. destruct (String.eqb v' "true"); [|done].
  apply stripPrefix_Some in Etag, Etag'. by rewrite Etag, Etag'.
Qed.

Lemma X3_providerTypes_witness :
  NoDup (providerTypesFromLabels (Some (Sample.labelled ["aws"; "gcp"]))).
Proof.
  apply X3_providerTypes_NoDup. vm_compute.
  apply NoDup_cons. split; [|apply NoDup_singleton].
  intros H. apply list_elem_of_singleton in H. discriminate.
Defined.

(** ** The mappings after a full refresh *)

Section Lookups.

Context {A : Type} (key : A -> string) (f : A -> Resource).

Lemma lookup_fold_insert (l : list A) (m0 : gmap string Resource) (k : string) :
  fold_left (fun m i => <[key i := f i]> m) l m0 !! k
  = match last (filter (fun i => key i = k) l) with
    | Some i => Some (f i)
    | None => m0 !! k
    end.
Proof.
  induction l as [|a l IH] using rev_ind; [done|].
  rewrite fold_left_app, filter_app, filter_cons, filter_nil. cbn [fold_left].
  destruct (decide (key a = k)) as [<-|Hne].
  - by rewrite last_snoc, lookup_insert_eq.
  - by rewrite app_nil_r, lookup_insert_ne.
Qed.

Lemma lookup_fold_insert_fresh (l : list A) (m0 : gmap string Resource) (k : string) :
  k ∉ key <$> l ->
  fold_left (fun m i => <[key i := f i]> m) l m0 !! k = m0 !! k.
Proof.
  revert m0. induction l as [|a l IH]; intros m0 Hk; [done|].
  cbn [fold_left]. rewrite IH.
  - apply lookup_insert_ne. intros Heq. apply Hk. rewrite fmap_cons, Heq. left.
  - intros Hin. apply Hk. rewrite fmap_cons. by right.
Qed.

Lemma lookup_fold_insert_elem (l : list A) (m0 : gmap string Resource) (a : A) :
  NoDup (key <$> l) -> a ∈ l ->
  fold_left (fun m i => <[key i := f i]> m) l m0 !! key a = Some (f a).
Proof.
  revert m0. induction l as [|b l IH]; intros m0 Hnodup Ha; [by apply elem_of_nil in Ha|].
  rewrite fmap_cons in Hnodup. apply NoDup_cons in Hnodup as [Hb Hnodup].
  cbn [fold_left]. apply elem_of_cons in Ha as [->|Ha]; [|by apply IH].
  by rewrite lookup_fold_insert_fresh, lookup_insert_eq.
Qed.

Lemma map_to_list_fold_insert (l : list A) (m0 : gmap string Resource) :
  NoDup (key <$> l) ->
  (forall a, a ∈ l -> m0 !! key a = None) ->
  map_to_list (fold_left (fun m i => <[key i := f i]> m) l m0)
  ≡ₚ ((fun i => (key i, f i)) <$> l) ++ map_to_list m0.
Proof.
  induction l as [|a l IH] using rev_ind; intros Hnodup Hfresh; [done|].
  rewrite fmap_app in Hnodup. apply NoDup_app in Hnodup as (Hnodup & Ha & _).
  rewrite fold_left_app. cbn [fold_left].
  rewrite map_to_list_insert.
  - rewrite IH; [|done|].
    + rewrite fmap_app. cbn. rewrite <- (assoc_L (++)). apply Permutation_middle.
    + intros b Hb. apply Hfresh. rewrite elem_of_app. by left.
  - rewrite lookup_fold_insert_fresh.
    + apply Hfresh. rewrite elem_of_app. right. left.
    + intros Hin. apply (Ha _ Hin). left.
Qed.

End Lookups.

Section AfterFetch.

Implicit Types (p : Payload.t) (st : State) (m : gmap string Resource).

Ltac skip_round :=
  match goal with
  | |- context [?proj (fold_left ?f ?l ?st)] =>
      rewrite (proj_fold proj f (fun m _ => m) (fun _ _ => eq_refl) l st), fold_left_const
  end.

Ltac enter_round g :=
  match goal with
  | |- context [?proj (fold_left ?f ?l ?st)] =>
      rewrite (proj_fold proj f g (fun _ _ => eq_refl) l st)
  end.

Lemma secretBindings_setCredentials p st :
  secretBindings (_setCredentials p st)
  = fold_left
      (fun m item => <[metadataKey (metadata item) := assignKind "SecretBinding" item]> m)
      (default [] (Payload.secretBindings p)) ∅.
Proof.
  unfold _setCredentials. rewrite !forEach_default. repeat skip_round.
  enter_round (fun m item =>
                 set m (metadataKey (metadata item)) (assignKind "SecretBinding" item)).
  apply fold_left_pointwise. intros. apply set_metadataKey.
Qed.

Lemma secrets_setCredentials p st :
  secrets (_setCredentials p st)
  = fold_left
      (fun m item => <[metadataKey (metadata item) := assignKind "Secret" item]> m)
      (default [] (Payload.secrets p)) ∅.
Proof.
  unfold _setCredentials. rewrite !forEach_default. repeat skip_round.
  enter_round (fun m item =>
                 set m (metadataKey (metadata item)) (assignKind "Secret" item)).
  repeat skip_round. apply fold_left_pointwise. intros. apply set_metadataKey.
Qed.

Lemma workloadIdentities_setCredentials p st :
  workloadIdentities (_setCredentials p st)
  = fold_left
      (fun m item => <[metadataKey (metadata item) := assignKind "WorkloadIdentity" item]> m)
      (default [] (Payload.workloadIdentities p)) ∅.
Proof.
  unfold _setCredentials. rewrite !forEach_default. repeat skip_round.
  enter_round (fun m item =>
                 set m (metadataKey (metadata item)) (assignKind "WorkloadIdentity" item)).
  repeat skip_round. apply fold_left_pointwise. intros. apply set_metadataKey.
Qed.

Lemma quotas_setCredentials p st :
  quotas (_setCredentials p st)
  = fold_left (fun m (item : Resource) => <[metadataKey (metadata item) := item]> m)
      (default [] (Payload.quotas p)) ∅.
Proof.
  unfold _setCredentials. rewrite !forEach_default.
  enter_round (fun m (item : Resource) => set m (metadataKey (metadata item)) item).
  repeat skip_round. apply fold_left_pointwise. intros. apply set_metadataKey.
Qed.

End AfterFetch.

(** X4. After a full refresh, [getSecret], [getWorkloadIdentity] and
    [getQuota] find under a namespace and name the last record of the
    fetched collection that has that key (a secret or workload identity
    with its kind assigned, a quota as it came) and nothing when the
    collection has no record with that key. *)
Theorem X4_getters_after_fetch (p : Payload.t) (st : State) (ns n : string) :
  getSecret (_setCredentials p st) ns n
  = assignKind "Secret"
      <$> last (filter (fun item => metadataKey (metadata item) = namespaceNameKey ns n)
                  (default [] (Payload.secrets p)))
  /\ getWorkloadIdentity (_setCredentials p st) ns n
     = assignKind "WorkloadIdentity"
         <$> last (filter (fun item => metadataKey (metadata item) = namespaceNameKey ns n)
                     (default [] (Payload.workloadIdentities p)))
  /\ getQuota (_setCredentials p st) ns n
     = last (filter (fun item => metadataKey (metadata item) = namespaceNameKey ns n)
               (default [] (Payload.quotas p))).
Proof.
  unfold getSecret, getWorkloadIdentity, getQuota.
  rewrite secrets_setCredentials, workloadIdentities_setCredentials, quotas_setCredentials.
  rewrite !lookup_fold_insert, lookup_empty.
  repeat split; by destruct (last _).
Qed.

Section Lists.

Implicit Types (p : Payload.t) (st : State) (m : gmap string Resource).

Lemma Permutation_List_filter {A : Type} (f : A -> bool) (l l' : list A) :
  l ≡ₚ l' -> List.filter f l ≡ₚ List.filter f l'.
Proof.
  induction 1 as [|x l l' _ IH|x y l|l l' l'' _ IH _ IH']; cbn [List.filter].
  - done.
  - destruct (f x); by rewrite IH.
  - destruct (f x), (f y); try done. apply Permutation_swap.
  - by rewrite IH.
Qed.

Lemma filter_all {A : Type} (f : A -> bool) (l : list A) :
  (forall x, x ∈ l -> f x = true) -> List.filter f l = l.
Proof.
  induction l as [|x l IH]; [done|]. intros H. cbn [List.filter].
  rewrite (H x) by left. f_equal. apply IH. intros y Hy. apply H. by right.
Qed.

Lemma elem_of_Object_values m (v : Resource) :
  v ∈ Object_values m <-> exists k, m !! k = Some v.
Proof.
  unfold Object_values. rewrite list_elem_of_fmap. split.
  - intros ([k v'] & -> & H). exists k. by apply elem_of_map_to_list.
  - intros [k H]. exists (k, v). split; [done|]. by apply elem_of_map_to_list.
Qed.

Lemma Object_values_fold_insert (f : Resource -> Resource) (l : list Resource) m :
  NoDup ((fun item => metadataKey (metadata item)) <$> l) ->
  (forall item, item ∈ l -> m !! metadataKey (metadata item) = None) ->
  Object_values (fold_left (fun m' item => <[metadataKey (metadata item) := f item]> m') l m)
  ≡ₚ (f <$> l) ++ Object_values m.
Proof.
  intros Hnodup Hfresh. unfold Object_values.
  rewrite (map_to_list_fold_insert (fun item => metadataKey (metadata item)) f) by done.
  by rewrite fmap_app, <- list_fmap_compose.
Qed.

Lemma lookup_fold_writeVirtual_fresh literal (kd : string) (owners : list Resource) m
    (k : string) :
  (forall owner t, owner ∈ owners ->
                   t ∈ providerTypesFromLabels (labels (metadata owner)) ->
                   k <> metadataKey (metadata owner) +:+ "/" +:+ t) ->
  fold_left (writeVirtual literal kd) owners m !! k = m !! k.
Proof.
  revert m. induction owners as [|owner owners IH]; intros m Hk; [done|].
  cbn [fold_left]. rewrite IH.
  - unfold writeVirtual. apply lookup_setVirtualBindings_other.
    intros t Ht. apply Hk; [by left|done].
  - intros owner' t Howner'. apply Hk. by right.
Qed.

Lemma lookup_fold_writeVirtual_elem literal (kd : string) (owners : list Resource) m
    (owner : Resource) (t : string) :
  Forall plainName owners ->
  NoDup ((fun item => metadataKey (metadata item)) <$> owners) ->
  owner ∈ owners ->
  t ∈ providerTypesFromLabels (labels (metadata owner)) ->
  fold_left (writeVirtual literal kd) owners m !! (metadataKey (metadata owner) +:+ "/" +:+ t)
  = Some (literal (assignKind kd owner) t).
Proof.
  revert m. induction owners as [|o owners IH]; intros m Hplain Hnodup Ho Ht;
    [by apply elem_of_nil in Ho|].
  apply Forall_cons in Hplain as [Hplain Hplains].
  rewrite fmap_cons in Hnodup. apply NoDup_cons in Hnodup as [Hfresh Hnodup].
  cbn [fold_left]. apply elem_of_cons in Ho as [->|Ho]; [|by apply IH].
  rewrite lookup_fold_writeVirtual_fresh.
  - unfold writeVirtual. by apply (lookup_setVirtualBindings_tag literal _ (assignKind kd o)).
  - intros owner' t' Howner' _ Heq.
    apply virtual_key_owner_inj in Heq as [Heq _];
      [|done|by apply (proj1 (Forall_forall _ _) Hplains)].
    apply Hfresh. rewrite Heq. apply list_elem_of_fmap. by exists owner'.
Qed.

(** After a full refresh, what is not an explicit binding is not of kind
    ["CredentialsBinding"]. *)
Lemma kinds_virtual_bindings (secrets identities : list Resource) :
  map_Forall (fun _ v => kind v <> Some "CredentialsBinding")
    (fold_left (writeVirtual workloadIdentityVirtualBinding "WorkloadIdentity") identities
       (fold_left (writeVirtual secretVirtualBinding "Secret") secrets ∅)).
Proof.
  apply (fold_left_preserves
           (map_Forall (fun (_ : string) v => kind v <> Some "CredentialsBinding"))).
  { intros m item _ Hm. by apply map_Forall_setVirtualBindings. }
  apply (fold_left_preserves
           (map_Forall (fun (_ : string) v => kind v <> Some "CredentialsBinding"))).
  { intros m item _ Hm. by apply map_Forall_setVirtualBindings. }
  apply map_Forall_empty.
Qed.

(** With plain names, the explicit bindings can be taken to be written
    last. *)
Lemma credentialsBindings_explicit_last p st :
  Forall plainName (default [] (Payload.credentialsBindings p)) ->
  Forall plainName (default [] (Payload.workloadIdentities p)) ->
  credentialsBindings (_setCredentials p st)
  = fold_left writeExplicit (default [] (Payload.credentialsBindings p))
      (fold_left (writeVirtual workloadIdentityVirtualBinding "WorkloadIdentity")
         (default [] (Payload.workloadIdentities p))
         (fold_left (writeVirtual secretVirtualBinding "Secret")
            (default [] (Payload.secrets p)) ∅)).
Proof.
  intros He Hw. rewrite credentialsBindings_setCredentials.
  by apply fold_writeVirtual_fold_writeExplicit.
Qed.

Lemma virtual_bindings_plain_key (secrets identities : list Resource) (ns n : string) :
  Js.hasSlash ns = false -> Js.hasSlash n = false ->
  Forall plainName secrets -> Forall plainName identities ->
  fold_left (writeVirtual workloadIdentityVirtualBinding "WorkloadIdentity") identities
    (fold_left (writeVirtual secretVirtualBinding "Secret") secrets ∅)
  !! namespaceNameKey ns n = None.
Proof.
  intros Hns Hn Hs Hw.
  pose (probe := {| kind := None; apiVersion := None;
                    metadata := {| namespace := ns; name := n; uid := "";
                                   labels := None; annotations := [] |};
                    provider := None; secretRef := None; credentialsRef := None;
                    data := [] |}).
  assert (plainName probe) as Hprobe by done.
  change (namespaceNameKey ns n) with (metadataKey (metadata probe)).
  rewrite !lookup_fold_writeVirtual_fresh; [apply lookup_empty| |].
  - intros owner t Howner _. apply explicit_key_not_virtual; [done|].
    by apply (proj1 (Forall_forall _ _) Hs).
  - intros owner t Howner _. apply explicit_key_not_virtual; [done|].
    by apply (proj1 (Forall_forall _ _) Hw).
Qed.

End Lists.

(** X5. After a full refresh of collections whose records have distinct
    keys, [secretBindingList] lists the fetched secret bindings, each with
    its kind assigned, and [quotaList] the fetched quotas as they came, in
    some order. When moreover no fetched namespace or name has a ["/"] in
    it, [credentialsBindingList] lists the fetched explicit bindings, each
    with its kind assigned, and none of the virtual ones. *)
Theorem X5_lists_after_fetch (p : Payload.t) (st : State) :
  (NoDup ((fun item => metadataKey (metadata item)) <$> default [] (Payload.secretBindings p)) ->
   secretBindingList (_setCredentials p st)
   ≡ₚ assignKind "SecretBinding" <$> default [] (Payload.secretBindings p))
  /\ (NoDup ((fun item => metadataKey (metadata item)) <$> default [] (Payload.quotas p)) ->
      quotaList (_setCredentials p st) ≡ₚ default [] (Payload.quotas p))
  /\ (listed (Payload.credentialsBindings p) ->
      Forall plainName (default [] (Payload.secrets p)) ->
      Forall plainName (default [] (Payload.workloadIdentities p)) ->
      credentialsBindingList (_setCredentials p st)
      ≡ₚ assignKind "CredentialsBinding" <$> default [] (Payload.credentialsBindings p)).
Proof.
  assert (Object_values ∅ = []) as Hempty.
  { unfold Object_values. by rewrite map_to_list_empty. }
  split; [|split].
  - intros Hnodup. unfold secretBindingList. rewrite secretBindings_setCredentials.
    rewrite Object_values_fold_insert; [|done|intros; apply lookup_empty].
    by rewrite Hempty, app_nil_r.
  - intros Hnodup. unfold quotaList. rewrite quotas_setCredentials.
    etransitivity.
    { apply (Object_values_fold_insert (fun item => item));
        [done|intros; apply lookup_empty]. }
    by rewrite Hempty, app_nil_r, list_fmap_id.
  - intros [Hplain Hnodup] Hs Hw. unfold credentialsBindingList.
    rewrite credentialsBindings_explicit_last by done.
    etransitivity.
    { apply Permutation_List_filter.
      apply (Object_values_fold_insert (assignKind "CredentialsBinding")); [done|].
      intros item Hitem.
      destruct (proj1 (Forall_forall _ _) Hplain item Hitem) as [Hns Hn].
      by apply (virtual_bindings_plain_key _ _ _ _ Hns Hn). }
    rewrite List.filter_app, filter_all, filter_none; [by rewrite app_nil_r| |].
    + intros v Hv. apply elem_of_Object_values in Hv as [k Hk].
      apply kinds_virtual_bindings in Hk. cbn in Hk.
      unfold kindIs. by apply bool_decide_eq_false_2.
    + intros v Hv. by apply list_elem_of_fmap in Hv as (item & -> & _).
Qed.

Lemma X5_lists_witness :
  let st := _setCredentials
              (Sample.payload [Sample.secretBinding] [Sample.secretAwsGcp]
                 [Sample.explicitBinding] [Sample.identityAwsGcp]
                 [Sample.quotaA; Sample.quotaB])
              reset in
  secretBindingList st ≡ₚ [assignKind "SecretBinding" Sample.secretBinding]
  /\ quotaList st ≡ₚ [Sample.quotaA; Sample.quotaB]
  /\ credentialsBindingList st ≡ₚ [assignKind "CredentialsBinding" Sample.explicitBinding].
Proof.
  intros st.
  destruct (X5_lists_after_fetch
              (Sample.payload [Sample.secretBinding] [Sample.secretAwsGcp]
                 [Sample.explicitBinding] [Sample.identityAwsGcp]
                 [Sample.quotaA; Sample.quotaB])
              reset) as (Hsb & Hq & Hcb).
  split; [|split].
  - apply Hsb. apply NoDup_singleton.
  - apply Hq. vm_compute. apply NoDup_cons. split; [|apply NoDup_singleton].
    intros H. apply list_elem_of_singleton in H. discriminate.
  - apply Hcb.
    + split; [by repeat constructor|apply NoDup_singleton].
    + by repeat constructor.
    + by repeat constructor.
Defined.

(** X6. After a full refresh of secrets and workload identities with
    distinct keys, where no fetched namespace or name has a ["/"] in it:
    every tag of a workload identity has the identity's virtual binding
    under owner key, ["/"] and tag; every tag of a secret has the secret's
    virtual binding there, unless a workload identity of the same namespace
    and name carries the same tag, whose virtual binding is there instead
    (the identities are written later); and under the key of a namespace
    and name the mapping holds the last fetched explicit binding of that
    key, with its kind assigned, or nothing. *)
Theorem X6_bindings_after_fetch (p : Payload.t) (st : State) :
  listed (Payload.secrets p) ->
  Forall plainName (default [] (Payload.credentialsBindings p)) ->
  listed (Payload.workloadIdentities p) ->
  let bindings := credentialsBindings (_setCredentials p st) in
  (forall identity t,
      identity ∈ default [] (Payload.workloadIdentities p) ->
      t ∈ providerTypesFromLabels (labels (metadata identity)) ->
      bindings !! (metadataKey (metadata identity) +:+ "/" +:+ t)
      = Some (workloadIdentityVirtualBinding (assignKind "WorkloadIdentity" identity) t))
  /\ (forall s t,
        s ∈ default [] (Payload.secrets p) ->
        t ∈ providerTypesFromLabels (labels (metadata s)) ->
        bindings !! (metadataKey (metadata s) +:+ "/" +:+ t)
        = Some (secretVirtualBinding (assignKind "Secret" s) t)
        \/ exists identity,
            identity ∈ default [] (Payload.workloadIdentities p)
            /\ metadataKey (metadata identity) = metadataKey (metadata s)
            /\ t ∈ providerTypesFromLabels (labels (metadata identity))
            /\ bindings !! (metadataKey (metadata s) +:+ "/" +:+ t)
               = Some (workloadIdentityVirtualBinding
                         (assignKind "WorkloadIdentity" identity) t))
  /\ (forall ns n,
        Js.hasSlash ns = false -> Js.hasSlash n = false ->
        bindings !! namespaceNameKey ns n
        = assignKind "CredentialsBinding"
            <$> last (filter (fun item => metadataKey (metadata item) = namespaceNameKey ns n)
                        (default [] (Payload.credentialsBindings p)))).
Proof.
  intros [Hs Hsk] He [Hw Hwk] bindings. subst bindings.
  assert (forall identity t,
             identity ∈ default [] (Payload.workloadIdentities p) ->
             t ∈ providerTypesFromLabels (labels (metadata identity)) ->
             credentialsBindings (_setCredentials p st)
               !! (metadataKey (metadata identity) +:+ "/" +:+ t)
             = Some (workloadIdentityVirtualBinding
                       (assignKind "WorkloadIdentity" identity) t)) as Hidentities.
  { intros identity t Hin Ht. rewrite credentialsBindings_setCredentials.
    by apply lookup_fold_writeVirtual_elem. }
  split; [exact Hidentities|]. split.
  - intros s t Hin Ht.
    destruct (decide (Exists (fun identity =>
                                metadataKey (metadata identity) = metadataKey (metadata s)
                                /\ t ∈ providerTypesFromLabels (labels (metadata identity)))
                        (default [] (Payload.workloadIdentities p)))) as [Hex|Hnone].
    + right. apply Exists_exists in Hex as (identity & Hidentity & Hkey & Htag).
      exists identity. repeat split; [done|done|done|].
      rewrite <- Hkey. by apply Hidentities.
    + left. rewrite credentialsBindings_setCredentials.
      rewrite lookup_fold_writeVirtual_fresh.
      * unfold writeExplicit. rewrite lookup_fold_insert_fresh.
        -- by apply lookup_fold_writeVirtual_elem.
        -- intros Hkey. apply list_elem_of_fmap in Hkey as (e & Hkey & Hin').
           symmetry in Hkey. revert Hkey. apply explicit_key_not_virtual.
           ++ by apply (proj1 (Forall_forall _ _) He).
           ++ by apply (proj1 (Forall_forall _ _) Hs).
      * intros identity t' Hidentity Ht' Heq. apply Hnone.
        apply Exists_exists. exists identity. split; [done|].
        apply virtual_key_owner_inj in Heq as [Heq ->].
        -- done.
        -- by apply (proj1 (Forall_forall _ _) Hs).
        -- by apply (proj1 (Forall_forall _ _) Hw).
  - intros ns n Hns Hn. rewrite credentialsBindings_explicit_last by done.
    unfold writeExplicit. rewrite lookup_fold_insert.
    destruct (last _); [done|]. by apply virtual_bindings_plain_key.
Qed.

Lemma X6_bindings_witness :
  let bindings :=
    credentialsBindings
      (_setCredentials
         (Sample.payload [] [Sample.secretAwsGcp] [Sample.explicitBinding]
            [Sample.identitySameName] [])
         reset) in
  bindings !! "a/s1/gcp"
  = Some (workloadIdentityVirtualBinding
            (assignKind "WorkloadIdentity" Sample.identitySameName) "gcp")
  /\ bindings !! "a/s1/aws"
     = Some (secretVirtualBinding (assignKind "Secret" Sample.secretAwsGcp) "aws")
  /\ bindings !! "a/s1" = Some (assignKind "CredentialsBinding" Sample.explicitBinding).
Proof.
  intros bindings.
  destruct (X6_bindings_after_fetch
              (Sample.payload [] [Sample.secretAwsGcp] [Sample.explicitBinding]
                 [Sample.identitySameName] [])
              reset) as (Hidentity & Hsecret & Hexplicit).
  - split; [by repeat constructor|apply NoDup_singleton].
  - by repeat constructor.
  - split; [by repeat constructor|apply NoDup_singleton].
  - split; [|split].
    + apply (Hidentity Sample.identitySameName "gcp"); [by left|vm_compute; by left].
    + destruct (Hsecret Sample.secretAwsGcp "aws") as [H|(identity & _ & _ & _ & H)];
        [by left|vm_compute; by left|exact H|].
      exfalso. vm_compute in H. destruct identity as [? ? [? ? ? ? ?] ? ? ? ?].
      cbn in H. discriminate.
    + exact (Hexplicit "a" "s1" eq_refl eq_refl).
Defined.

(** ** The refresh of one secret *)



(** X8. Updating a secret leaves alone what is not its own: the secret
    bindings, workload identities and quotas stay as they are, the secret
    goes into the secrets as it came from the backend, and every entry of the
    credentials-bindings mapping whose key is neither the secret's key nor
    under it (the key, then ["/"]) stays as it is. With namespaces and
    names without ["/"], the virtual bindings of any owner with another key
    are such entries. *)
Theorem X8_refresh_frame (st : State) (secret : Resource) :
  let st' := _updateCloudProviderCredential None (Some secret) st in
  let ownerKey := metadataKey (metadata secret) in
  secretBindings st' = secretBindings st
  /\ workloadIdentities st' = workloadIdentities st
  /\ quotas st' = quotas st
  /\ secrets st' = <[ownerKey := secret]> (secrets st)
  /\ (forall k,
        k <> ownerKey -> Js.startsWith k (ownerKey +:+ "/") = false ->
        credentialsBindings st' !! k = credentialsBindings st !! k)
  /\ (forall other t,
        plainName secret -> plainName other ->
        metadataKey (metadata other) <> ownerKey ->
        credentialsBindings st' !! (metadataKey (metadata other) +:+ "/" +:+ t)
        = credentialsBindings st !! (metadataKey (metadata other) +:+ "/" +:+ t)).
Proof.
  intros st' ownerKey. subst st' ownerKey.
  cbn [_updateCloudProviderCredential whenDefined].
  assert (forall k,
             k <> metadataKey (metadata secret) ->
             Js.startsWith k (metadataKey (metadata secret) +:+ "/") = false ->
             credentialsBindings (updateSecret secret st) !! k
             = credentialsBindings st !! k) as Hframe.
  { intros k Hk Hunder. rewrite lookup_updateSecret_other.
    - destruct (credentialsBindings st !! k) as [item|]; [|done].
      unfold ownedBy. rewrite Hunder.
      by rewrite (proj2 (String.eqb_neq k _) Hk).
    - intros t _ ->. by rewrite startsWith_virtualKey in Hunder. }
  repeat split; [apply set_metadataKey|exact Hframe|].
  intros other t Hsecret Hother Hkey. apply Hframe.
  - intros Heq. symmetry in Heq. revert Heq. by apply explicit_key_not_virtual.
  - destruct (Js.startsWith _ _) eqn:E; [|done]. exfalso. apply Hkey.
    apply (virtual_key_under other secret t); [done|done|].
    by rewrite E, orb_true_r.
Qed.

Lemma X8_refresh_frame_witness :
  let st := _setCredentials
              (Sample.payload [] [Sample.secretAwsGcp; Sample.otherSecret] [] [] []) reset in
  credentialsBindings
    (_updateCloudProviderCredential None (Some Sample.secretGcpAzure) st) !! "a/s2/aws"
  = credentialsBindings st !! "a/s2/aws".
Proof.
  intros st.
  destruct (X8_refresh_frame st Sample.secretGcpAzure) as (_ & _ & _ & _ & _ & Hother).
  apply (Hother Sample.otherSecret "aws"); [by split|by split|].
  vm_compute. discriminate.
Defined.

(** A name with a ["/"] in it breaks the frame: updating the secret of
    namespace ["a"] and name ["s1"] removes the virtual binding of the
    secret of namespace ["a"] and name ["s1/x"]. *)
Example refresh_frame_slash :
  let nested := Sample.resource (Some "Secret") "a" "s1/x" "u12" ["aws"] in
  let st := _setCredentials (Sample.payload [] [Sample.secretAwsGcp; nested] [] [] []) reset in
  credentialsBindings st !! "a/s1/x/aws"
  = Some (secretVirtualBinding nested "aws")
  /\ credentialsBindings
       (_updateCloudProviderCredential None (Some Sample.secretGcpAzure) st) !! "a/s1/x/aws"
     = None.
Proof. vm_compute. by split. Qed.

(** ** Create, update and delete *)

Section EntryPoints.

Implicit Types (api : Api) (w : World) (st : State).

Lemma elem_of_List_filter {A : Type} (f : A -> bool) (l : list A) (x : A) :
  x ∈ List.filter f l <-> f x = true /\ x ∈ l.
Proof. rewrite !list_elem_of_In, List.filter_In. tauto. Qed.

Lemma updateBinding_secrets (b : Resource) st :
  secrets (updateBinding b st) = secrets st
  /\ workloadIdentities (updateBinding b st) = workloadIdentities st
  /\ quotas (updateBinding b st) = quotas st.
Proof.
  unfold updateBinding.
  by destruct (kindIs b "SecretBinding"), (kindIs b "CredentialsBinding").
Qed.

Lemma update_frame (b s : option Resource) st :
  workloadIdentities (_updateCloudProviderCredential b s st) = workloadIdentities st
  /\ quotas (_updateCloudProviderCredential b s st) = quotas st.
Proof.
  unfold _updateCloudProviderCredential, whenDefined.
  destruct s as [s|], b as [b|]; cbn [updateSecret workloadIdentities quotas];
    try done; apply updateBinding_secrets.
Qed.

Lemma getSecret_update (b : option Resource) (s : Resource) st :
  getSecret (_updateCloudProviderCredential b (Some s) st)
    (namespace (metadata s)) (name (metadata s)) = Some s.
Proof.
  unfold getSecret, _updateCloudProviderCredential, whenDefined.
  cbn [updateSecret secrets]. rewrite set_metadataKey. apply lookup_insert_eq.
Qed.

Lemma updateSecret_keeps_binding (s v : Resource) st (k : string) :
  kind v <> Some "Secret" ->
  (forall t, t ∈ providerTypesFromLabels (labels (metadata s)) ->
             k <> metadataKey (metadata s) +:+ "/" +:+ t) ->
  credentialsBindings st !! k = Some v ->
  credentialsBindings (updateSecret s st) !! k = Some v.
Proof.
  intros Hkind Hk Hstored. rewrite lookup_updateSecret_other by done.
  rewrite Hstored. unfold ownedBy.
  by rewrite (bool_decide_eq_false_2 _ Hkind), andb_false_r.
Qed.

Lemma lookup_update_tag (b : option Resource) (s : Resource) st (t : string) :
  t ∈ providerTypesFromLabels (labels (metadata s)) ->
  credentialsBindings (_updateCloudProviderCredential b (Some s) st)
    !! (metadataKey (metadata s) +:+ "/" +:+ t)
  = Some (secretVirtualBinding s t).
Proof. apply lookup_updateSecret_tag. Qed.

End EntryPoints.

(** X9. When the backend answers [createCredential] with a binding and a
    secret, the call succeeds and tells the app store so with the name of the
    returned binding; afterwards [getSecret] finds the returned secret, as it
    came, every tag of its labels has its virtual binding, and the returned
    binding is in the binding list: among the secret bindings when its kind
    is ["SecretBinding"], and among the explicit credentials bindings when
    its kind is ["CredentialsBinding"] and namespaces and names have no
    ["/"]. A binding of any other kind is not stored. *)
Theorem X9_createCredential_stores_answer (api : Api) (params created : Credential)
    (w : World) (b s : Resource) :
  createCloudProviderCredential api
    {| binding := binding params; secret := secret params |}
  = Resolved {| body := Some created |} ->
  binding created = Some b ->
  secret created = Some s ->
  let after := createCredential api params w in
  after.2 = Resolved tt
  /\ alerts after.1
     = (alerts w ++ ["Cloud Provider credential " +:+ name (metadata b) +:+ " created"])%list
  /\ getSecret (state after.1) (namespace (metadata s)) (name (metadata s)) = Some s
  /\ (forall t,
        t ∈ providerTypesFromLabels (labels (metadata s)) ->
        credentialsBindings (state after.1) !! (metadataKey (metadata s) +:+ "/" +:+ t)
        = Some (secretVirtualBinding s t))
  /\ (kind b = Some "SecretBinding" ->
      secretBindings (state after.1) !! metadataKey (metadata b) = Some b
      /\ b ∈ secretBindingList (state after.1)
      /\ b ∈ cloudProviderBindingList (state after.1))
  /\ (kind b = Some "CredentialsBinding" -> plainName b -> plainName s ->
      credentialsBindings (state after.1) !! metadataKey (metadata b) = Some b
      /\ b ∈ credentialsBindingList (state after.1)
      /\ b ∈ cloudProviderBindingList (state after.1))
  /\ (kind b <> Some "SecretBinding" -> kind b <> Some "CredentialsBinding" ->
      state after.1 = _updateCloudProviderCredential None (Some s) (state w)).
Proof.
  intros Hanswer Hb Hs after.
  assert (state after.1
          = _updateCloudProviderCredential (Some b) (Some s) (state w)) as Hstate.
  { subst after. by rewrite (state_createCredential _ _ _ _ Hanswer), Hb, Hs. }
  assert (after = (setSuccess
                     ("Cloud Provider credential " +:+ name (metadata b) +:+ " created")
                     (withState
                        (_updateCloudProviderCredential (Some b) (Some s) (state w)) w),
                   Resolved tt)) as Hafter.
  { subst after. unfold createCredential. rewrite Hanswer. cbn [body]. by rewrite Hb, Hs. }
  split; [by rewrite Hafter|]. split; [by rewrite Hafter|].
  rewrite Hstate. clear Hafter Hstate after.
  split; [apply getSecret_update|]. split; [intros t; apply lookup_update_tag|].
  cbn [_updateCloudProviderCredential whenDefined].
  split; [|split].
  - intros Hkind.
    assert (secretBindings (updateSecret s (updateBinding b (state w)))
              !! metadataKey (metadata b) = Some b) as Hstored.
    { cbn [updateSecret secretBindings]. unfold updateBinding, kindIs. rewrite Hkind.
      rewrite bool_decide_eq_true_2 by done. cbn [secretBindings].
      by rewrite set_metadataKey, lookup_insert_eq. }
    split; [done|].
    assert (b ∈ secretBindingList (updateSecret s (updateBinding b (state w)))) as Hin.
    { apply elem_of_Object_values. by eexists. }
    split; [done|]. unfold cloudProviderBindingList. rewrite elem_of_app. by left.
  - intros Hkind Hplainb Hplains.
    assert (credentialsBindings (updateSecret s (updateBinding b (state w)))
              !! metadataKey (metadata b) = Some b) as Hstored.
    { apply updateSecret_keeps_binding; [congruence| |].
      - intros t _. by apply explicit_key_not_virtual.
      - unfold updateBinding, kindIs. rewrite Hkind.
        rewrite bool_decide_eq_false_2 by discriminate.
        rewrite bool_decide_eq_true_2 by done. cbn [credentialsBindings].
        by rewrite set_metadataKey, lookup_insert_eq. }
    split; [done|].
    assert (b ∈ Object_values
                  (credentialsBindings (updateSecret s (updateBinding b (state w)))))
      as Hin.
    { apply elem_of_Object_values. by eexists. }
    split.
    + apply elem_of_List_filter. split; [|done].
      unfold kindIs. by apply bool_decide_eq_true_2.
    + unfold cloudProviderBindingList. rewrite elem_of_app. by right.
  - intros Hsb Hcb. f_equal. unfold updateBinding, kindIs.
    by rewrite !bool_decide_eq_false_2.
Qed.

Lemma X9_createCredential_witness :
  let after := createCredential (Sample.servingApi (Sample.payload [] [] [] [] []))
                 {| binding := Some Sample.explicitBinding;
                    secret := Some Sample.secretAwsGcp |}
                 Sample.initial in
  after.2 = Resolved tt
  /\ alerts after.1 = ["Cloud Provider credential s1 created"]
  /\ getSecret (state after.1) "a" "s1" = Some Sample.secretAwsGcp
  /\ credentialsBindings (state after.1) !! "a/s1" = Some Sample.explicitBinding
  /\ Sample.explicitBinding ∈ credentialsBindingList (state after.1).
Proof.
  intros after.
  destruct (X9_createCredential_stores_answer
              (Sample.servingApi (Sample.payload [] [] [] [] []))
              {| binding := Some Sample.explicitBinding;
                 secret := Some Sample.secretAwsGcp |}
              {| binding := Some Sample.explicitBinding;
                 secret := Some Sample.secretAwsGcp |}
              Sample.initial Sample.explicitBinding Sample.secretAwsGcp
              eq_refl eq_refl eq_refl)
    as (Hok & Halerts & Hsecret & _ & _ & Hexplicit & _).
  destruct (Hexplicit eq_refl) as (Hstored & Hlisted & _); [by split|by split|].
  by repeat split.
Defined.

(** X10. When the backend answers [createCredential] without a binding,
    the returned secret is stored all the same and its virtual bindings are
    written, but the call fails with a type error and the app store is not
    told of a success. *)
Theorem X10_createCredential_without_binding (api : Api) (params created : Credential)
    (w : World) :
  createCloudProviderCredential api
    {| binding := binding params; secret := secret params |}
  = Resolved {| body := Some created |} ->
  binding created = None ->
  let after := createCredential api params w in
  after.2 = Rejected TypeError
  /\ alerts after.1 = alerts w
  /\ state after.1 = _updateCloudProviderCredential None (secret created) (state w)
  /\ (forall s,
        secret created = Some s ->
        getSecret (state after.1) (namespace (metadata s)) (name (metadata s)) = Some s
        /\ forall t,
            t ∈ providerTypesFromLabels (labels (metadata s)) ->
            credentialsBindings (state after.1) !! (metadataKey (metadata s) +:+ "/" +:+ t)
            = Some (secretVirtualBinding s t)).
Proof.
  intros Hanswer Hb after.
  assert (after = (withState
                     (_updateCloudProviderCredential None (secret created) (state w)) w,
                   Rejected TypeError)) as ->.
  { subst after. unfold createCredential. rewrite Hanswer. cbn [body]. by rewrite Hb. }
  split; [done|]. split; [done|]. split; [done|].
  intros s Hs. cbn [fst withState state]. rewrite Hs.
  split; [apply getSecret_update|intros t; apply lookup_update_tag].
Qed.

Lemma X10_createCredential_witness :
  let after := createCredential Sample.secretOnlyApi
                 {| binding := Some Sample.explicitBinding;
                    secret := Some Sample.secretAwsGcp |}
                 Sample.initial in
  after.2 = Rejected TypeError
  /\ alerts after.1 = []
  /\ getSecret (state after.1) "a" "s1" = Some Sample.secretAwsGcp.
Proof.
  intros after.
  destruct (X10_createCredential_without_binding Sample.secretOnlyApi
              {| binding := Some Sample.explicitBinding;
                 secret := Some Sample.secretAwsGcp |}
              {| binding := None; secret := Some Sample.secretAwsGcp |}
              Sample.initial eq_refl eq_refl)
    as (Hfail & Halerts & _ & Hsecret).
  destruct (Hsecret Sample.secretAwsGcp eq_refl) as [Hget _].
  by repeat split.
Defined.

(** X11. When the backend answers [updateCredential] and the parameters
    hold the secret that was sent, the call succeeds; the message to the app
    store names the binding of the parameters if it has a name that is not
    empty, and the secret of the parameters otherwise, never the returned
    secret. The store takes the returned secret as it came, with its virtual
    bindings; the secret bindings, workload identities and quotas stay as
    they are. *)
Theorem X11_updateCredential_stores_answer (api : Api) (params updated : Credential)
    (w : World) (sent : Resource) :
  updateCloudProviderCredential api (secret params) = Resolved {| body := Some updated |} ->
  secret params = Some sent ->
  let after := updateCredential api params w in
  let shown :=
    match binding params with
    | Some b => if String.eqb (name (metadata b)) "" then name (metadata sent)
                else name (metadata b)
    | None => name (metadata sent)
    end in
  after.2 = Resolved tt
  /\ alerts after.1
     = (alerts w ++ ["Cloud Provider credential " +:+ shown +:+ " updated"])%list
  /\ secretBindings (state after.1) = secretBindings (state w)
  /\ workloadIdentities (state after.1) = workloadIdentities (state w)
  /\ quotas (state after.1) = quotas (state w)
  /\ (forall s,
        secret updated = Some s ->
        getSecret (state after.1) (namespace (metadata s)) (name (metadata s)) = Some s
        /\ forall t,
            t ∈ providerTypesFromLabels (labels (metadata s)) ->
            credentialsBindings (state after.1) !! (metadataKey (metadata s) +:+ "/" +:+ t)
            = Some (secretVirtualBinding s t)).
Proof.
  intros Hanswer Hsent after shown.
  assert (displayName (binding params) (secret params) = Resolved shown) as Hname.
  { subst shown. rewrite Hsent. unfold displayName.
    destruct (binding params) as [b|]; [|done].
    by destruct (String.eqb (name (metadata b)) ""). }
  assert (after = (setSuccess ("Cloud Provider credential " +:+ shown +:+ " updated")
                     (withState
                        (_updateCloudProviderCredential None (secret updated) (state w)) w),
                   Resolved tt)) as ->.
  { subst after. unfold updateCredential. rewrite Hanswer. cbn [body]. by rewrite Hname. }
  cbn [fst snd setSuccess withState state alerts].
  split; [done|]. split; [done|].
  split; [by destruct (secret updated)|].
  split; [apply update_frame|]. split; [apply update_frame|].
  intros s ->. split; [apply getSecret_update|intros t; apply lookup_update_tag].
Qed.

Lemma X11_updateCredential_witness :
  let after := updateCredential (Sample.servingApi (Sample.payload [] [] [] [] []))
                 {| binding := Some Sample.explicitBinding;
                    secret := Some Sample.secretGcpAzure |}
                 Sample.populated in
  after.2 = Resolved tt
  /\ alerts after.1
     = ["Cloud Provider credential s1 created"; "Cloud Provider credential s1 updated"]
  /\ getSecret (state after.1) "a" "s1" = Some Sample.secretGcpAzure.
Proof.
  intros after.
  destruct (X11_updateCredential_stores_answer
              (Sample.servingApi (Sample.payload [] [] [] [] []))
              {| binding := Some Sample.explicitBinding;
                 secret := Some Sample.secretGcpAzure |}
              {| binding := None; secret := Some Sample.secretGcpAzure |}
              Sample.populated Sample.secretGcpAzure eq_refl eq_refl)
    as (Hok & Halerts & _ & _ & _ & Hsecret).
  destruct (Hsecret Sample.secretGcpAzure eq_refl) as [Hget _].
  by repeat split.
Defined.

(** X12. Two edges of [updateCredential] once the backend has answered.
    When the answer holds no secret, the store stays as it is (and the call
    still reports success if the parameters name a binding or hold a secret).
    When the parameters hold no secret and no binding with a name that is not
    empty, the store is updated from the answer, and then the call fails with
    a type error and the app store is not told of a success. *)
Theorem X12_updateCredential_edges (api : Api) (params updated : Credential) (w : World) :
  updateCloudProviderCredential api (secret params) = Resolved {| body := Some updated |} ->
  let after := updateCredential api params w in
  (secret updated = None -> state after.1 = state w)
  /\ (secret updated = None -> is_Some (secret params) ->
      after.2 = Resolved tt /\ exists message, alerts after.1 = (alerts w ++ [message])%list)
  /\ (secret params = None ->
      (forall b, binding params = Some b -> name (metadata b) = "") ->
      after.2 = Rejected TypeError
      /\ alerts after.1 = alerts w
      /\ state after.1 = _updateCloudProviderCredential None (secret updated) (state w)).
Proof.
  intros Hanswer after.
  assert (state after.1 = _updateCloudProviderCredential None (secret updated) (state w))
    as Hstate by (subst after; by apply state_updateCredential).
  split; [|split].
  - intros Hnone. by rewrite Hstate, Hnone.
  - intros _ [sent Hsent].
    subst after. unfold updateCredential. rewrite Hanswer. cbn [body].
    assert (exists shown, displayName (binding params) (secret params) = Resolved shown)
      as [shown ->].
    { rewrite Hsent. unfold displayName. destruct (binding params) as [b|]; [|by eexists].
      destruct (negb _); by eexists. }
    split; [done|]. by eexists.
  - intros Hsent Hb. split; [|split; [|done]].
    + subst after. unfold updateCredential. rewrite Hanswer. cbn [body].
      rewrite Hsent. unfold displayName. destruct (binding params) as [b|]; [|done].
      by rewrite (Hb b eq_refl).
    + subst after. unfold updateCredential. rewrite Hanswer. cbn [body].
      rewrite Hsent. unfold displayName. destruct (binding params) as [b|]; [|done].
      by rewrite (Hb b eq_refl).
Qed.

Lemma X12_updateCredential_witness :
  let after := updateCredential Sample.secretOnlyApi
                 {| binding := None; secret := Some Sample.secretGcpAzure |}
                 Sample.populated in
  state after.1 = state Sample.populated
  /\ after.2 = Resolved tt
  /\ exists message, alerts after.1 = (alerts Sample.populated ++ [message])%list.
Proof.
  intros after.
  destruct (X12_updateCredential_edges Sample.secretOnlyApi
              {| binding := None; secret := Some Sample.secretGcpAzure |}
              {| binding := None; secret := None |}
              Sample.populated eq_refl) as (Hstate & Hok & _).
  split; [exact (Hstate eq_refl)|].
  apply (Hok eq_refl). by eexists.
Defined.

(** X13. [deleteCredential] removes nothing from the store by itself. When
    the backend refuses the delete, nothing changes and the error is thrown
    on, without a fetch. When the backend has deleted, the store becomes what
    [fetchCredentials] makes of it, the call ends the way the fetch ends, and
    the app store is told of the success, with the name that was asked for,
    only if the fetch succeeded; a fetch that fails leaves the store
    empty. *)
Theorem X13_deleteCredential_refetches (api : Api) (namespace : string)
    (bindingKind bindingNamespace bindingName : string) (w : World) :
  let after := deleteCredential api namespace bindingKind bindingNamespace bindingName w in
  let fetched := fetchCredentials api namespace w in
  (forall err,
      deleteCloudProviderCredential api bindingKind bindingNamespace bindingName
      = Rejected err ->
      after = (w, Rejected err))
  /\ (forall done',
        deleteCloudProviderCredential api bindingKind bindingNamespace bindingName
        = Resolved done' ->
        state after.1 = state fetched.1
        /\ after.2 = fetched.2
        /\ (forall err, fetched.2 = Rejected err ->
                        alerts after.1 = alerts w /\ state after.1 = reset)
        /\ (fetched.2 = Resolved tt ->
            alerts after.1
            = (alerts w
               ++ ["Cloud Provider credential " +:+ bindingName +:+ " deleted"])%list)).
Proof.
  intros after fetched. subst after. unfold deleteCredential. split.
  - by intros err ->.
  - intros done' ->.
    pose proof (fetchCredentials_failure_resets api namespace w) as Hreset.
    assert (alerts fetched.1 = alerts w) as Halerts.
    { subst fetched. unfold fetchCredentials, fetchAttempt.
      by destruct (getCloudProviderCredentials api namespace) as [[[payload|]]|err]. }
    fold fetched in Hreset |- *.
    destruct fetched as [w' [[]|err]]; cbn [fst snd] in *.
    + split; [done|]. split; [done|]. split; [by intros err [=]|].
      intros _. cbn. by rewrite Halerts.
    + split; [done|]. split; [done|]. split; [|by intros [=]].
      intros err' Herr. split; [done|]. by apply (Hreset err').
Qed.

Lemma X13_deleteCredential_witness :
  deleteCredential Sample.unreachableApi "a" "CredentialsBinding" "a" "s1" Sample.populated
  = (Sample.populated, Rejected (BackendError "ECONNREFUSED"))
  /\ state (deleteCredential Sample.deleteOnlyApi "a" "CredentialsBinding" "a" "s1"
              Sample.populated).1
     = reset
  /\ alerts (deleteCredential Sample.deleteOnlyApi "a" "CredentialsBinding" "a" "s1"
               Sample.populated).1
     = alerts Sample.populated.
Proof.
  destruct (X13_deleteCredential_refetches Sample.unreachableApi "a" "CredentialsBinding"
              "a" "s1" Sample.populated) as [Hrefused _].
  destruct (X13_deleteCredential_refetches Sample.deleteOnlyApi "a" "CredentialsBinding"
              "a" "s1" Sample.populated) as [_ Hdeleted].
  split; [exact (Hrefused _ eq_refl)|].
  destruct (Hdeleted tt eq_refl) as (_ & _ & Hfailed & _).
  destruct (Hfailed (BackendError "ECONNREFUSED") eq_refl) as [Halerts Hstate].
  by split.
Defined.

(** X14. Each of create, update and delete tells the app store of a
    success exactly when it succeeds, and then once; a call that fails adds
    no message. [fetchCredentials] never adds one. This holds whatever the
    backend answers. *)
Theorem X14_success_is_notified_once (api : Api) (params : Credential)
    (namespace bindingKind bindingNamespace bindingName : string) (w : World) :
  notifiedOnce w (createCredential api params w)
  /\ notifiedOnce w (updateCredential api params w)
  /\ notifiedOnce w
       (deleteCredential api namespace bindingKind bindingNamespace bindingName w)
  /\ alerts (fetchCredentials api namespace w).1 = alerts w.
Proof.
  assert (alerts (fetchCredentials api namespace w).1 = alerts w) as Hfetch.
  { unfold fetchCredentials, fetchAttempt.
    by destruct (getCloudProviderCredentials api namespace) as [[[payload|]]|err]. }
  unfold notifiedOnce. repeat split; [| | |done].
  - unfold createCredential.
    destruct (createCloudProviderCredential api _) as [[[created|]]|err]; cbn; [|done|done].
    destruct (binding created); cbn; [by eexists|done].
  - unfold updateCredential.
    destruct (updateCloudProviderCredential api _) as [[[updated|]]|err]; cbn; [|done|done].
    destruct (displayName _ _); cbn; [by eexists|done].
  - unfold deleteCredential.
    destruct (deleteCloudProviderCredential api _ _ _) as [[]|err]; cbn; [|done].
    destruct (fetchCredentials api namespace w) as [w' [[]|err]]; cbn in *.
    + rewrite Hfetch. by eexists.
    + done.
Qed.

(** X15. Whatever the backend answers, [createCredential] and
    [updateCredential] change neither the workload identities nor the
    quotas, and [updateCredential] changes no secret binding. *)
Theorem X15_create_update_frame (api : Api) (params : Credential) (w : World) :
  workloadIdentities (state (createCredential api params w).1) = workloadIdentities (state w)
  /\ quotas (state (createCredential api params w).1) = quotas (state w)
  /\ workloadIdentities (state (updateCredential api params w).1)
     = workloadIdentities (state w)
  /\ quotas (state (updateCredential api params w).1) = quotas (state w)
  /\ secretBindings (state (updateCredential api params w).1) = secretBindings (state w).
Proof.
  assert (forall b s,
             workloadIdentities (_updateCloudProviderCredential b s (state w))
             = workloadIdentities (state w)
             /\ quotas (_updateCloudProviderCredential b s (state w)) = quotas (state w))
    as Hframe by (intros; apply update_frame).
  repeat split.
  - unfold createCredential.
    destruct (createCloudProviderCredential api _) as [[[created|]]|err]; cbn; [|done|done].
    destruct (binding created); cbn; apply Hframe.
  - unfold createCredential.
    destruct (createCloudProviderCredential api _) as [[[created|]]|err]; cbn; [|done|done].
    destruct (binding created); cbn; apply Hframe.
  - unfold updateCredential.
    destruct (updateCloudProviderCredential api _) as [[[updated|]]|err]; cbn; [|done|done].
    destruct (displayName _ _); cbn; apply Hframe.
  - unfold updateCredential.
    destruct (updateCloudProviderCredential api _) as [[[updated|]]|err]; cbn; [|done|done].
    destruct (displayName _ _); cbn; apply Hframe.
  - unfold updateCredential.
    destruct (updateCloudProviderCredential api _) as [[[updated|]]|err]; cbn; [|done|done].
    destruct (displayName _ _), (secret updated); done.
Qed.

(** ** What every store of a session holds *)

Section Invariants.

Implicit Types (st : State) (m : gmap string Resource) (w : World).

Lemma ownKeyed_empty : ownKeyed ∅.
Proof. intros k v H. by rewrite lookup_empty in H. Qed.

Lemma ofKind_empty (kd : string) : ofKind kd ∅.
Proof. intros k v H. by rewrite lookup_empty in H. Qed.

Lemma ownKeyed_insert m (v : Resource) :
  ownKeyed m -> ownKeyed (<[metadataKey (metadata v) := v]> m).
Proof.
  intros Hm k v' Hk. destruct (decide (metadataKey (metadata v) = k)) as [<-|Hne].
  - rewrite lookup_insert_eq in Hk. by injection Hk as <-.
  - rewrite lookup_insert_ne in Hk by done. by apply Hm.
Qed.

Lemma ofKind_insert (kd : string) m (k : string) (v : Resource) :
  ofKind kd m -> kind v = Some kd -> ofKind kd (<[k := v]> m).
Proof.
  intros Hm Hv k' v' Hk. destruct (decide (k = k')) as [<-|Hne].
  - rewrite lookup_insert_eq in Hk. by injection Hk as <-.
  - rewrite lookup_insert_ne in Hk by done. by apply (Hm k').
Qed.

Lemma ownKeyed_fold (f : Resource -> Resource) (l : list Resource) :
  (forall item, metadata (f item) = metadata item) ->
  ownKeyed (fold_left (fun m item => <[metadataKey (metadata item) := f item]> m) l ∅).
Proof.
  intros Hf. apply (fold_left_preserves ownKeyed); [|apply ownKeyed_empty].
  intros m item _ Hm. rewrite <- (Hf item). by apply ownKeyed_insert.
Qed.

Lemma ofKind_fold (kd : string) (l : list Resource) :
  ofKind kd (fold_left
               (fun m item => <[metadataKey (metadata item) := assignKind kd item]> m) l ∅).
Proof.
  apply (fold_left_preserves (ofKind kd)); [|apply ofKind_empty].
  intros m item _ Hm. by apply ofKind_insert.
Qed.

Lemma storeKeyed_reset : storeKeyed reset.
Proof.
  repeat split; (apply ownKeyed_empty || apply ofKind_empty).
Qed.

Lemma storeKeyed_setCredentials (p : Payload.t) st : storeKeyed (_setCredentials p st).
Proof.
  unfold storeKeyed.
  rewrite secretBindings_setCredentials, secrets_setCredentials,
    workloadIdentities_setCredentials, quotas_setCredentials.
  repeat split; (by apply ownKeyed_fold) || apply ofKind_fold.
Qed.

Lemma storeKeyed_update (b s : option Resource) st :
  storeKeyed st -> storeKeyed (_updateCloudProviderCredential b s st).
Proof.
  intros Hst.
  assert (forall b', storeKeyed (updateBinding b' st)) as Hbinding.
  { intros b'. destruct Hst as ((Hsb & Hsbk) & Hs & Hwi & Hq).
    unfold updateBinding. destruct (kindIs b' "SecretBinding") eqn:E.
    - apply bool_decide_eq_true_1 in E.
      repeat split; cbn; rewrite ?set_metadataKey;
        [by apply ownKeyed_insert|by apply ofKind_insert|done|apply Hwi|apply Hwi|done].
    - by destruct (kindIs b' "CredentialsBinding"). }
  assert (forall s' st', storeKeyed st' -> storeKeyed (updateSecret s' st')) as Hsecret.
  { intros s' st' (Hsb & Hs & Hwi & Hq).
    repeat split; cbn; rewrite ?set_metadataKey;
      [apply Hsb|apply Hsb|by apply ownKeyed_insert|apply Hwi|apply Hwi|done]. }
  unfold _updateCloudProviderCredential, whenDefined.
  destruct s as [s|], b as [b|]; auto.
Qed.

Lemma storeKeyed_fetchCredentials (api : Api) (namespace : string) w :
  storeKeyed (state (fetchCredentials api namespace w).1).
Proof.
  unfold fetchCredentials, fetchAttempt.
  destruct (getCloudProviderCredentials api namespace) as [[[payload|]]|err]; cbn;
    auto using storeKeyed_reset, storeKeyed_setCredentials.
Qed.

Lemma reachable_storeKeyed w : reachable w -> storeKeyed (state w).
Proof.
  induction 1 as [|api ns w _ IH|api params w _ IH|api params w _ IH|api ns k n n' w _ IH].
  - apply storeKeyed_reset.
  - apply storeKeyed_fetchCredentials.
  - unfold createCredential.
    destruct (createCloudProviderCredential api _) as [[[created|]]|err]; cbn; [|done|done].
    destruct (binding created); cbn; by apply storeKeyed_update.
  - unfold updateCredential.
    destruct (updateCloudProviderCredential api _) as [[[updated|]]|err]; cbn; [|done|done].
    destruct (displayName _ _); cbn; by apply storeKeyed_update.
  - unfold deleteCredential.
    destruct (deleteCloudProviderCredential api k n n') as [[]|err]; cbn; [|done].
    pose proof (storeKeyed_fetchCredentials api ns w) as Hfetch.
    by destruct (fetchCredentials api ns w) as [w' [[]|err]].
Qed.

End Invariants.

(** X16. In every store a session can be in, [getSecret],
    [getWorkloadIdentity] and [getQuota] return only a record whose own
    key is the key that was asked for, and a workload identity they return
    has the kind ["WorkloadIdentity"]. When the namespace asked for and the
    namespace of a returned secret have no ["/"], the secret has the
    namespace and the name that were asked for. *)
Theorem X16_getters_return_own_key (w : World) (ns n : string) (r : Resource) :
  reachable w ->
  (getSecret (state w) ns n = Some r -> metadataKey (metadata r) = namespaceNameKey ns n)
  /\ (getWorkloadIdentity (state w) ns n = Some r ->
      metadataKey (metadata r) = namespaceNameKey ns n /\ kind r = Some "WorkloadIdentity")
  /\ (getQuota (state w) ns n = Some r -> metadataKey (metadata r) = namespaceNameKey ns n)
  /\ (getSecret (state w) ns n = Some r ->
      Js.hasSlash ns = false -> Js.hasSlash (namespace (metadata r)) = false ->
      namespace (metadata r) = ns /\ name (metadata r) = n).
Proof.
  intros Hw. destruct (reachable_storeKeyed w Hw) as (_ & Hs & (Hwi & Hwik) & Hq).
  unfold getSecret, getWorkloadIdentity, getQuota.
  split; [|split; [|split]].
  - intros H. symmetry. by apply Hs.
  - intros H. split; [symmetry; by apply Hwi|by apply (Hwik _ _ H)].
  - intros H. symmetry. by apply Hq.
  - intros H Hns Hr. apply Hs in H. unfold metadataKey, namespaceNameKey in H.
    symmetry in H. by apply slash_split in H.
Qed.

Lemma X16_getters_witness :
  let w := (fetchCredentials
              (Sample.servingApi
                 (Sample.payload [] [Sample.secretAwsGcp] [] [Sample.identityAwsGcp] []))
              "a" Sample.initial).1 in
  namespace (metadata (assignKind "Secret" Sample.secretAwsGcp)) = "a"
  /\ name (metadata (assignKind "Secret" Sample.secretAwsGcp)) = "s1".
Proof.
  intros w.
  destruct (X16_getters_return_own_key w "a" "s1" (assignKind "Secret" Sample.secretAwsGcp))
    as (_ & _ & _ & Hsecret).
  - apply reach_fetch, reach_initial.
  - apply Hsecret; reflexivity.
Defined.

(** X17. In every store a session can be in: a binding of
    [secretBindingList] has the kind ["SecretBinding"] and is stored under
    its own key; a binding of [credentialsBindingList] has the kind
    ["CredentialsBinding"] and is stored under its own key; every binding
    of [cloudProviderBindingList], and so of [infrastructureBindingList]
    and [dnsBindingList] whatever the classifiers, has one of the kinds
    ["SecretBinding"], ["CredentialsBinding"], ["Secret"] and
    ["WorkloadIdentity"]; and [dnsBindingList] holds no shared credential. *)
Theorem X17_binding_lists (w : World) (cls : Classifiers) (b : Resource) :
  reachable w ->
  (b ∈ secretBindingList (state w) ->
   kind b = Some "SecretBinding"
   /\ secretBindings (state w) !! metadataKey (metadata b) = Some b)
  /\ (b ∈ credentialsBindingList (state w) ->
      kind b = Some "CredentialsBinding"
      /\ credentialsBindings (state w) !! metadataKey (metadata b) = Some b)
  /\ (b ∈ cloudProviderBindingList (state w) -> bindingKind b)
  /\ (b ∈ infrastructureBindingList cls (state w) ->
      bindingKind b /\ b ∈ cloudProviderBindingList (state w))
  /\ (b ∈ dnsBindingList cls (state w) ->
      bindingKind b /\ b ∈ cloudProviderBindingList (state w)
      /\ isSharedCredential cls b = false).
Proof.
  intros Hw.
  destruct (reachable_storeKeyed w Hw) as ((Hsb & Hsbk) & _).
  pose proof (reachable_wellKeyed w Hw) as Hcb.
  assert (b ∈ secretBindingList (state w) ->
          kind b = Some "SecretBinding"
          /\ secretBindings (state w) !! metadataKey (metadata b) = Some b) as Hsecret.
  { intros Hin. apply elem_of_Object_values in Hin as [k Hk].
    split; [by apply (Hsbk _ _ Hk)|]. by rewrite <- (Hsb _ _ Hk). }
  assert (b ∈ cloudProviderBindingList (state w) -> bindingKind b) as Hall.
  { unfold cloudProviderBindingList. rewrite elem_of_app. intros [Hin|Hin].
    - left. by apply Hsecret.
    - apply elem_of_Object_values in Hin as [k Hk].
      destruct (Hcb _ _ Hk) as [[Hkind _]|(owner & tag & _ & [->| ->])].
      + right. by left.
      + right. right. by left.
      + right. right. by right. }
  split; [exact Hsecret|]. split; [|split; [exact Hall|split]].
  - intros Hin. apply elem_of_List_filter in Hin as [Hkind Hin].
    apply bool_decide_eq_true_1 in Hkind. split; [done|].
    apply elem_of_Object_values in Hin as [k Hk].
    destruct (Hcb _ _ Hk) as [[_ ->]|(owner & tag & _ & [->| ->])]; [done|done|done].
  - intros Hin. apply elem_of_List_filter in Hin as [_ Hin]. split; [by apply Hall|done].
  - intros Hin. apply elem_of_List_filter in Hin as [Hdns Hin].
    apply andb_true_iff in Hdns as [_ Hshared].
    split; [by apply Hall|]. split; [done|]. by apply negb_true_iff in Hshared.
Qed.

Lemma X17_binding_lists_witness :
  let w := (fetchCredentials
              (Sample.servingApi
                 (Sample.payload [Sample.secretBinding] [Sample.secretAwsGcp]
                    [Sample.explicitBinding] [] []))
              "a" Sample.initial).1 in
  credentialsBindings (state w) !! "a/s1"
  = Some (assignKind "CredentialsBinding" Sample.explicitBinding)
  /\ bindingKind (secretVirtualBinding (assignKind "Secret" Sample.secretAwsGcp) "aws").
Proof.
  intros w.
  destruct (X17_binding_lists w Sample.byProviderType
              (assignKind "CredentialsBinding" Sample.explicitBinding))
    as (_ & Hexplicit & _); [apply reach_fetch, reach_initial|].
  destruct (X17_binding_lists w Sample.byProviderType
              (secretVirtualBinding (assignKind "Secret" Sample.secretAwsGcp) "aws"))
    as (_ & _ & _ & _ & Hdns); [apply reach_fetch, reach_initial|].
  split.
  - apply Hexplicit. apply elem_of_List_filter. split; [done|].
    apply elem_of_Object_values. exists "a/s1". vm_compute. reflexivity.
  - apply Hdns. apply elem_of_List_filter. split; [done|].
    unfold cloudProviderBindingList. rewrite elem_of_app. right.
    apply elem_of_Object_values. exists "a/s1/aws". vm_compute. reflexivity.
Defined.

(** ** Update against refresh *)

Section UpdateAgainstRefresh.

Implicit Types (p : Payload.t) (st : State) (m : gmap string Resource).

Lemma setVirtualBindings_comm literal literal' (key key' : string) (item item' : Resource) m :
  (forall t t', key +:+ "/" +:+ t <> key' +:+ "/" +:+ t') ->
  setVirtualBindings literal key item (setVirtualBindings literal' key' item' m)
  = setVirtualBindings literal' key' item' (setVirtualBindings literal key item m).
Proof.
  intros Hkeys. apply map_eq. intros k.
  destruct (lookup_setVirtualBindings literal key item
              (setVirtualBindings literal' key' item' m) k)
    as [(t & Ht & -> & Hk)|(Hne & Hk)]; rewrite Hk.
  - rewrite lookup_setVirtualBindings_other by (intros t' _; apply Hkeys).
    symmetry. by apply lookup_setVirtualBindings_tag.
  - destruct (lookup_setVirtualBindings literal' key' item' m k)
      as [(t' & Ht' & -> & Hk')|(Hne' & Hk')]; rewrite Hk'.
    + symmetry. by apply lookup_setVirtualBindings_tag.
    + by rewrite !lookup_setVirtualBindings_other.
Qed.

Lemma other_owner_keys (owner owner' : Resource) :
  plainName owner -> plainName owner' ->
  metadataKey (metadata owner) <> metadataKey (metadata owner') ->
  forall t t',
    metadataKey (metadata owner) +:+ "/" +:+ t <> metadataKey (metadata owner') +:+ "/" +:+ t'.
Proof.
  intros Ho Ho' Hne t t' Heq. by apply virtual_key_owner_inj in Heq as [Heq _].
Qed.

Lemma writeVirtual_fold_comm literal literal' (kd kd' : string) (owner : Resource)
    (owners : list Resource) m :
  plainName owner -> Forall plainName owners ->
  metadataKey (metadata owner) ∉ (fun item => metadataKey (metadata item)) <$> owners ->
  writeVirtual literal kd (fold_left (writeVirtual literal' kd') owners m) owner
  = fold_left (writeVirtual literal' kd') owners (writeVirtual literal kd m owner).
Proof.
  intros Ho. revert m. induction owners as [|o owners IH]; intros m Hos Hfresh; [done|].
  apply Forall_cons in Hos as [Hplain Hos]. rewrite fmap_cons in Hfresh.
  apply not_elem_of_cons in Hfresh as [Hne Hfresh].
  cbn [fold_left]. rewrite IH by done. f_equal.
  unfold writeVirtual. apply setVirtualBindings_comm. by apply other_owner_keys.
Qed.

Lemma fold_writeVirtual_middle literal (kd : string) (before after' : list Resource)
    (owner : Resource) m :
  Forall plainName (before ++ owner :: after')%list ->
  NoDup ((fun item => metadataKey (metadata item)) <$> (before ++ owner :: after')%list) ->
  fold_left (writeVirtual literal kd) (before ++ owner :: after')%list m
  = writeVirtual literal kd (fold_left (writeVirtual literal kd) (before ++ after')%list m) owner.
Proof.
  intros Hplain Hnodup.
  apply Forall_app in Hplain as [_ Hplain]. apply Forall_cons in Hplain as [Ho Hafter].
  rewrite fmap_app, fmap_cons in Hnodup.
  apply NoDup_app in Hnodup as (_ & _ & Hnodup). apply NoDup_cons in Hnodup as [Hfresh _].
  rewrite !fold_left_app. cbn [fold_left].
  by rewrite (writeVirtual_fold_comm literal literal kd kd owner after').
Qed.

(** The credentials-bindings mapping after a refresh, with the virtual
    bindings of one secret written last. *)
Lemma credentialsBindings_secret_last p st (before after' : list Resource) (owner : Resource) :
  Payload.secrets p = Some (before ++ owner :: after')%list ->
  listed (Payload.secrets p) ->
  Forall plainName (default [] (Payload.credentialsBindings p)) ->
  Forall plainName (default [] (Payload.workloadIdentities p)) ->
  (forall identity, identity ∈ default [] (Payload.workloadIdentities p) ->
                    metadataKey (metadata identity) <> metadataKey (metadata owner)) ->
  credentialsBindings (_setCredentials p st)
  = writeVirtual secretVirtualBinding "Secret"
      (credentialsBindings (_setCredentials (withSecrets p (before ++ after')%list) st)) owner.
Proof.
  intros Hsecrets [Hplain Hnodup] He Hw Hother.
  rewrite !credentialsBindings_setCredentials.
  cbn [withSecrets Payload.secrets Payload.credentialsBindings Payload.workloadIdentities].
  rewrite Hsecrets in *. cbn [default from_option id] in *.
  rewrite fold_writeVirtual_middle by done.
  assert (plainName owner) as Ho.
  { apply Forall_app in Hplain as [_ Hplain]. by apply Forall_cons in Hplain as [Ho _]. }
  rewrite (writeVirtual_fold_comm secretVirtualBinding workloadIdentityVirtualBinding);
    [|done|done|].
  - f_equal.
    change (writeVirtual secretVirtualBinding "Secret"
              (fold_left (writeVirtual secretVirtualBinding "Secret") (before ++ after')%list ∅)
              owner)
      with (fold_left (writeVirtual secretVirtualBinding "Secret") [owner]
              (fold_left (writeVirtual secretVirtualBinding "Secret") (before ++ after')%list ∅)).
    rewrite <- (fold_writeVirtual_fold_writeExplicit secretVirtualBinding "Secret" [owner]);
      [done|done|by constructor].
  - intros Hin. apply list_elem_of_fmap in Hin as (identity & Hkey & Hin).
    by apply (Hother identity Hin).
Qed.

Lemma insert_fold_insert (f : Resource -> Resource) (l : list Resource) m
    (k : string) (v : Resource) :
  k ∉ (fun item => metadataKey (metadata item)) <$> l ->
  <[k := v]> (fold_left (fun m' item => <[metadataKey (metadata item) := f item]> m') l m)
  = fold_left (fun m' item => <[metadataKey (metadata item) := f item]> m') l (<[k := v]> m).
Proof.
  revert m. induction l as [|a l IH]; intros m Hk; [done|].
  rewrite fmap_cons in Hk. apply not_elem_of_cons in Hk as [Hne Hk].
  cbn [fold_left]. rewrite IH by done. f_equal. by apply insert_insert_ne.
Qed.

(** Apart from the secret's own virtual bindings, a refreshed store holds
    nothing that the purge for the secret would remove, and nothing under the
    keys of its virtual bindings. *)
Lemma rest_not_owned p st (rest : list Resource) (owner : Resource) :
  plainName owner ->
  Forall plainName rest ->
  (forall s, s ∈ rest -> metadataKey (metadata s) <> metadataKey (metadata owner)) ->
  Forall plainName (default [] (Payload.credentialsBindings p)) ->
  Forall plainName (default [] (Payload.workloadIdentities p)) ->
  (forall identity, identity ∈ default [] (Payload.workloadIdentities p) ->
                    metadataKey (metadata identity) <> metadataKey (metadata owner)) ->
  let rest_bindings := credentialsBindings (_setCredentials (withSecrets p rest) st) in
  (forall t, rest_bindings !! (metadataKey (metadata owner) +:+ "/" +:+ t) = None)
  /\ (forall k v, rest_bindings !! k = Some v ->
                  ownedBy (metadataKey (metadata owner)) (Some "Secret") k v = false).
Proof.
  intros Ho Hrest Hkeys He Hw Hother rest_bindings. subst rest_bindings.
  rewrite credentialsBindings_setCredentials.
  cbn [withSecrets Payload.secrets Payload.credentialsBindings Payload.workloadIdentities
       default from_option id].
  split.
  - intros t. rewrite lookup_fold_writeVirtual_fresh.
    + unfold writeExplicit. rewrite lookup_fold_insert_fresh.
      * rewrite lookup_fold_writeVirtual_fresh; [apply lookup_empty|].
        intros s t' Hs _. apply other_owner_keys; [done| |].
        -- by apply (proj1 (Forall_forall _ _) Hrest).
        -- apply not_eq_sym. by apply Hkeys.
      * intros Hin. apply list_elem_of_fmap in Hin as (e & Hkey & Hin).
        symmetry in Hkey. revert Hkey. apply explicit_key_not_virtual; [|done].
        by apply (proj1 (Forall_forall _ _) He).
    + intros identity t' Hidentity _. apply other_owner_keys; [done| |].
      * by apply (proj1 (Forall_forall _ _) Hw).
      * apply not_eq_sym. by apply Hother.
  - apply (fold_left_preserves
             (map_Forall (fun k v =>
                            ownedBy (metadataKey (metadata owner)) (Some "Secret") k v
                            = false))).
    { intros m identity _ Hm. apply map_Forall_setVirtualBindings; [done|].
      intros t. unfold ownedBy. by rewrite andb_false_r. }
    apply (fold_left_preserves
             (map_Forall (fun k v =>
                            ownedBy (metadataKey (metadata owner)) (Some "Secret") k v
                            = false))).
    { intros m e _ Hm. apply map_Forall_insert_2; [|done].
      unfold ownedBy. by rewrite andb_false_r. }
    apply (fold_left_preserves
             (map_Forall (fun k v =>
                            ownedBy (metadataKey (metadata owner)) (Some "Secret") k v
                            = false))); [|apply map_Forall_empty].
    intros m s Hs Hm. apply map_Forall_setVirtualBindings; [done|].
    intros t. unfold ownedBy.
    destruct (_ || _) eqn:E; [|done]. exfalso. apply (Hkeys s Hs).
    apply (virtual_key_under s owner t); [|done|done].
    by apply (proj1 (Forall_forall _ _) Hrest).
Qed.

Lemma purge_after_write (owner : Resource) m :
  (forall t, m !! (metadataKey (metadata owner) +:+ "/" +:+ t) = None) ->
  (forall k v, m !! k = Some v ->
               ownedBy (metadataKey (metadata owner)) (Some "Secret") k v = false) ->
  purgeVirtualBindings (metadataKey (metadata owner))
    (writeVirtual secretVirtualBinding "Secret" m owner)
  = m.
Proof.
  intros Hfree Hclean. apply map_eq. intros k. rewrite lookup_purgeVirtualBindings.
  unfold writeVirtual.
  destruct (lookup_setVirtualBindings secretVirtualBinding (metadataKey (metadata owner))
              (assignKind "Secret" owner) m k) as [(t & _ & -> & Hk)|(_ & Hk)]; rewrite Hk.
  - by rewrite ownedBy_virtual, Hfree.
  - destruct (m !! k) as [v|] eqn:E; [|done]. by rewrite (Hclean _ _ E).
Qed.

End UpdateAgainstRefresh.

(** X18. Updating one secret of a refreshed store gives the store that a
    refresh with the secret replaced would give. This holds when the fetched
    secrets have distinct keys, no fetched namespace or name has a ["/"] in
    it, the updated secret has the namespace and name of the one it
    replaces and comes with the kind ["Secret"], and no fetched workload
    identity has that namespace and name. *)
Theorem X18_update_agrees_with_refresh (p : Payload.t) (st : State)
    (before after' : list Resource) (old new : Resource) :
  Payload.secrets p = Some (before ++ old :: after')%list ->
  listed (Payload.secrets p) ->
  Forall plainName (default [] (Payload.credentialsBindings p)) ->
  Forall plainName (default [] (Payload.workloadIdentities p)) ->
  (forall identity, identity ∈ default [] (Payload.workloadIdentities p) ->
                    metadataKey (metadata identity) <> metadataKey (metadata old)) ->
  namespace (metadata new) = namespace (metadata old) ->
  name (metadata new) = name (metadata old) ->
  kind new = Some "Secret" ->
  _updateCloudProviderCredential None (Some new) (_setCredentials p st)
  = _setCredentials (withSecrets p (before ++ new :: after')%list) st.
Proof.
  intros Hsecrets Hlisted He Hw Hother Hns Hname Hkind.
  assert (metadataKey (metadata new) = metadataKey (metadata old)) as Hkey.
  { unfold metadataKey. by rewrite Hns, Hname. }
  pose proof Hlisted as [Hplain Hnodup].
  rewrite Hsecrets in Hplain, Hnodup. cbn [default from_option id] in Hplain, Hnodup.
  assert (plainName old /\ Forall plainName (before ++ after')%list) as [Hold Hrest].
  { apply Forall_app in Hplain as [Hb Hplain]. apply Forall_cons in Hplain as [Ho Ha].
    split; [done|]. by apply Forall_app. }
  assert (plainName new) as Hnew.
  { destruct Hold. unfold plainName. by rewrite Hns, Hname. }
  assert (forall s, s ∈ (before ++ after')%list ->
                    metadataKey (metadata s) <> metadataKey (metadata old)) as Hkeys.
  { rewrite fmap_app, fmap_cons in Hnodup.
    apply NoDup_app in Hnodup as (_ & Hb & Hnodup). apply NoDup_cons in Hnodup as [Ha _].
    intros s Hs Heq. apply elem_of_app in Hs as [Hs|Hs].
    - apply (Hb (metadataKey (metadata s))); [apply list_elem_of_fmap; by exists s|].
      rewrite Heq. left.
    - apply Ha. rewrite <- Heq. apply list_elem_of_fmap. by exists s. }
  assert (listed (Payload.secrets (withSecrets p (before ++ new :: after')%list)))
    as Hlisted'.
  { unfold listed. cbn [withSecrets Payload.secrets default from_option id]. split.
    - apply Forall_app in Hplain as [Hb Hplain]. apply Forall_cons in Hplain as [_ Ha].
      apply Forall_app. split; [done|]. by apply Forall_cons.
    - rewrite fmap_app, fmap_cons, Hkey. by rewrite fmap_app, fmap_cons in Hnodup. }
  cbn [_updateCloudProviderCredential whenDefined].
  apply State_eq.
  - cbn [updateSecret secretBindings]. by rewrite !secretBindings_setCredentials.
  - cbn [updateSecret secrets]. rewrite set_metadataKey, !secrets_setCredentials.
    rewrite Hsecrets. cbn [withSecrets Payload.secrets default from_option id].
    rewrite !fold_left_app. cbn [fold_left].
    rewrite (insert_fold_insert (assignKind "Secret")).
    + by rewrite Hkey, insert_insert_eq, (assignKind_same _ _ Hkind).
    + rewrite Hkey. rewrite fmap_app, fmap_cons in Hnodup.
      apply NoDup_app in Hnodup as (_ & _ & Hnodup). by apply NoDup_cons in Hnodup as [Ha _].
  - cbn [updateSecret credentialsBindings].
    rewrite (credentialsBindings_secret_last p st before after' old) by done.
    rewrite (credentialsBindings_secret_last
               (withSecrets p (before ++ new :: after')%list) st before after' new);
      [|done|done|done|done|by rewrite Hkey].
    change (withSecrets (withSecrets p (before ++ new :: after')%list) (before ++ after')%list)
      with (withSecrets p (before ++ after')%list).
    destruct (rest_not_owned p st (before ++ after')%list old) as [Hfree Hclean];
      [done|done|done|done|done|done|].
    rewrite Hkey, purge_after_write by done.
    unfold writeVirtual. by rewrite Hkey, (assignKind_same _ _ Hkind).
  - cbn [updateSecret workloadIdentities]. by rewrite !workloadIdentities_setCredentials.
  - cbn [updateSecret quotas]. by rewrite !quotas_setCredentials.
Qed.

Lemma X18_update_agrees_witness :
  _updateCloudProviderCredential None (Some Sample.secretGcpAzure)
    (_setCredentials
       (Sample.payload [Sample.secretBinding] [Sample.secretAwsGcp; Sample.otherSecret]
          [Sample.explicitBinding] [Sample.identityAwsGcp] [Sample.quotaA])
       reset)
  = _setCredentials
      (Sample.payload [Sample.secretBinding] [Sample.secretGcpAzure; Sample.otherSecret]
         [Sample.explicitBinding] [Sample.identityAwsGcp] [Sample.quotaA])
      reset.
Proof.
  apply (X18_update_agrees_with_refresh
           (Sample.payload [Sample.secretBinding] [Sample.secretAwsGcp; Sample.otherSecret]
              [Sample.explicitBinding] [Sample.identityAwsGcp] [Sample.quotaA])
           reset [] [Sample.otherSecret] Sample.secretAwsGcp Sample.secretGcpAzure);
    try reflexivity.
  - split; [by repeat constructor|]. vm_compute.
    apply NoDup_cons. split; [|apply NoDup_singleton].
    intros H. apply list_elem_of_singleton in H. discriminate.
  - by repeat constructor.
  - by repeat constructor.
  - intros identity Hin. apply list_elem_of_singleton in Hin as ->. vm_compute. discriminate.
Defined.

(** Next to a workload identity of the same namespace and name the two
    differ: the refresh ends with the identity's virtual binding under the
    shared key, the update with the secret's. *)
Example update_differs_from_refresh :
  let p := Sample.payload [] [Sample.secretAwsGcp] [] [Sample.identitySameName] [] in
  credentialsBindings (_setCredentials p reset) !! "a/s1/gcp"
  = Some (workloadIdentityVirtualBinding Sample.identitySameName "gcp")
  /\ credentialsBindings
       (_updateCloudProviderCredential None (Some Sample.secretAwsGcp)
          (_setCredentials p reset)) !! "a/s1/gcp"
     = Some (secretVirtualBinding Sample.secretAwsGcp "gcp").
Proof. vm_compute. by split. Qed.
